(** * ESP32 pinout viewer: navigation history, highlights and the pin dataset

    A shallow embedding of the parts of [Pinout_GUI.py], [esp32_pin_data.py],
    [pin.py], [pin_button.py] and [layout_config.py] that carry state or
    data: the static pin table and its category lists, the back/forward
    history kept by [PinoutApp], and the highlight bookkeeping.

    Python objects are modelled as records, Python dicts as association
    lists in insertion order (both dicts of the program are written as
    literals with pairwise distinct keys and are iterated in that order),
    and the methods of [PinoutApp] as computations in a small state and
    exception monad over the application object. *)

From Stdlib Require Import String Ascii List ZArith Bool Lia Permutation.
From Stdlib Require Import DecimalString Sorted.
Import ListNotations.

Open Scope string_scope.
Open Scope list_scope.
Open Scope Z_scope.

(** ** Python values used by the program *)

Module Py.

(** [d.get(k)] on a dict kept as an association list. *)
Fixpoint dict_get {V : Type} (k : string) (d : list (string * V)) : option V :=
  match d with
  | [] => None
  | (k', v) :: d' => if String.eqb k k' then Some v else dict_get k d'
  end.

(** [d.keys()], in insertion order. *)
Definition dict_keys {V : Type} (d : list (string * V)) : list string :=
  map fst d.

(** Mutation of the object stored under key [k] (the dict holds a
    reference, so every alias of the object sees the change). *)
Fixpoint dict_modify {V : Type} (k : string) (f : V -> V)
         (d : list (string * V)) : list (string * V) :=
  match d with
  | [] => []
  | (k', v) :: d' =>
      if String.eqb k k' then (k', f v) :: d'
      else (k', v) :: dict_modify k f d'
  end.

(** [x in l] for a list (or a set built from lists) of strings. *)
Definition str_in (x : string) (l : list string) : bool :=
  existsb (String.eqb x) l.

(** [len(l)] as a Python integer. *)
Definition len {A : Type} (l : list A) : Z := Z.of_nat (length l).

(** [l[:k]]: a negative bound counts from the end, and every bound is
    clamped to the list. *)
Definition slice_to {A : Type} (l : list A) (k : Z) : list A :=
  if k <? 0 then firstn (Z.to_nat (len l + k)) l
  else firstn (Z.to_nat k) l.

(** [l[i]]: a negative index counts from the end; [None] stands for the
    [IndexError] of an index outside the list. *)
Definition index {A : Type} (l : list A) (i : Z) : option A :=
  if (0 <=? i) && (i <? len l) then nth_error l (Z.to_nat i)
  else if (- len l <=? i) && (i <? 0) then nth_error l (Z.to_nat (len l + i))
  else None.

(** [sorted(l)] on strings: a stable sort by the lexicographic order of
    the characters, here by insertion. *)
Fixpoint insert_sorted (x : string) (l : list string) : list string :=
  match l with
  | [] => [x]
  | y :: l' => if String.leb x y then x :: l else y :: insert_sorted x l'
  end.

Definition sorted (l : list string) : list string :=
  fold_right insert_sorted [] l.

(** [int(a / b)] for integers: the quotient truncated towards zero. *)
Definition int_div (a b : Z) : Z := Z.quot a b.

(** [str(n)] for a length. *)
Definition str_of_nat (n : nat) : string :=
  NilEmpty.string_of_uint (Nat.to_uint n).

End Py.

(** ** [pin.py]: the [Pin] dataclass *)

Record Pin : Type := mkPin
  { name : string;
    functions : list string;
    pin_type : string;
    note : string }.

(** [Pin(name, functions, pin_type)] with the default [note = ""]. *)
Definition Pin3 (n : string) (fs : list string) (t : string) : Pin :=
  mkPin n fs t "".

(** ** [esp32_pin_data.py]: the dataset *)

Record ESP32PinData : Type := mkData
  { pins : list (string * Pin);
    i2c_pins : list string;
    adc_pins : list string;
    spi_pins : list string;
    pwm_pins : list string;
    power_pins : list string;
    input_only_pins : list string;
    in_out_pins : list string }.

Definition flash_note : string :=
  "Connected to SPI flash; using will cause boot failure".
Definition wifi_note : string := "Only Digital if WiFi is used".
Definition boot_low_note : string :=
  "Must be low during boot &  , Only Digital if WiFi is used".

Definition _initialize_pins : list (string * Pin) :=
  [ ("GPIO0", mkPin "GPIO0" ["Boot button"; "ADC2 –CH1–"; "PWM"] "Input/Output"
                "Pull-down during boot to flash");
    ("GPIO1", mkPin "GPIO1 (TX0)" ["UART0 TX"; "PWM"] "Input/Output"
                "Used for UART logging");
    ("GPIO2", mkPin "GPIO2" ["ADC2 –CH2–"; "PWM"] "Input/Output"
                "Must be low to enter boot mode");
    ("GPIO3", mkPin "GPIO3 (RX0)" ["UART0 RX"; "PWM"] "Input/Output"
                "Used for UART logging");
    ("GPIO4", Pin3 "GPIO4" ["ADC2 –CH0–"; "PWM"] "Input/Output");
    ("GPIO5", mkPin "GPIO5" ["VSPI –SS–"; "PWM"] "Input/Output"
                "Must be high during boot");
    ("GPIO6", mkPin "GPIO6" ["Integrated SPI Flash SCK"] "Internal (do not use)" flash_note);
    ("GPIO7", mkPin "GPIO7" ["Integrated SPI Flash SD0"] "Internal (do not use)" flash_note);
    ("GPIO8", mkPin "GPIO8" ["Integrated SPI Flash SD1"] "Internal (do not use)" flash_note);
    ("GPIO9", mkPin "GPIO9" ["Integrated SPI Flash SD2"] "Internal (do not use)" flash_note);
    ("GPIO10", mkPin "GPIO10" ["Integrated SPI Flash SD3"] "Internal (do not use)" flash_note);
    ("GPIO11", mkPin "GPIO11" ["Integrated SPI Flash CMD"] "Internal (do not use)" flash_note);
    ("GPIO12", mkPin "GPIO12" ["ADC2 –CH5–"; "HSPI –MISO–"; "PWM"] "Input only" boot_low_note);
    ("GPIO13", mkPin "GPIO13" ["ADC2 –CH4–"; "HSPI –MOSI–"; "PWM"] "Input/Output" wifi_note);
    ("GPIO14", mkPin "GPIO14" ["ADC2 –CH6–"; "HSPI –CLK–"; "PWM"] "Input/Output" wifi_note);
    ("GPIO15", mkPin "GPIO15" ["ADC2 –CH3–"; "HSPI –SS–"; "PWM"] "Input/Output" boot_low_note);
    ("GPIO16", Pin3 "GPIO16" ["UART2 –RX–"; "PWM"] "Input/Output");
    ("GPIO17", Pin3 "GPIO17" ["UART2 –TX–"; "PWM"] "Input/Output");
    ("GPIO18", Pin3 "GPIO18" ["VSPI –CLK–"; "PWM"] "Input/Output");
    ("GPIO19", Pin3 "GPIO19" ["VSPI –MISO–"; "PWM"] "Input/Output");
    ("GPIO21", Pin3 "GPIO21" ["I2C –SDA–"; "PWM"] "Input/Output");
    ("GPIO22", Pin3 "GPIO22" ["I2C –SCL–"; "PWM"] "Input/Output");
    ("GPIO23", Pin3 "GPIO23" ["VSPI –MOSI–"; "PWM"] "Input/Output");
    ("GPIO25", mkPin "GPIO25" ["DAC1"; "ADC2 –CH8–"; "PWM"] "Input/Output" wifi_note);
    ("GPIO26", mkPin "GPIO26" ["DAC2"; "ADC2 –CH9–"; "PWM"] "Input/Output" wifi_note);
    ("GPIO27", mkPin "GPIO27" ["ADC2 –CH7–"; "PWM"] "Input/Output" wifi_note);
    ("GPIO32", Pin3 "GPIO32" ["ADC1 –CH4–"; "PWM"] "Input/Output");
    ("GPIO33", Pin3 "GPIO33" ["ADC1 –CH5–"; "PWM"] "Input/Output");
    ("GPIO34", Pin3 "GPIO34" ["ADC1 –CH6–"] "Input only");
    ("GPIO35", Pin3 "GPIO35" ["ADC1 –CH7–"] "Input only");
    ("GPIO36", Pin3 "GPIO36 (VP)" ["ADC1 –CH0–"] "Input only");
    ("GPIO39", Pin3 "GPIO39 (VN)" ["ADC1 –CH3–"] "Input only");
    ("EN", mkPin "EN (Enable)" ["Reset"] "Input" "Active high to enable chip");
    ("VIN", mkPin "VIN" ["Power"] "Power" "Typically 5V input");
    ("3V3", mkPin "3.3V" ["Power"] "Power" "3.3V output/input");
    ("GND2", Pin3 "GND" ["Ground"] "Power");
    ("GND3", Pin3 "GND" ["Ground"] "Power");
    ("GND1", Pin3 "GND" ["Ground"] "Power") ].

(** The comprehension [[pin_id for pin_id, pin in pins.items()
    if pin.pin_type == t]]. *)
Definition pins_of_type (t : string) (ps : list (string * Pin)) : list string :=
  map fst (filter (fun kv => String.eqb (pin_type (snd kv)) t) ps).

(** [ESP32PinData.__init__]. *)
Definition ESP32PinData_init : ESP32PinData :=
  let ps := _initialize_pins in
  {| pins := ps;
     i2c_pins := ["GPIO21"; "GPIO22"];
     adc_pins := ["GPIO32"; "GPIO33"; "GPIO34"; "GPIO35"; "GPIO36"; "GPIO39";
                  "GPIO25"; "GPIO26"; "GPIO27"; "GPIO12"; "GPIO13"; "GPIO14";
                  "GPIO15"];
     spi_pins := ["GPIO18"; "GPIO19"; "GPIO23"; "GPIO5"; "GPIO12"; "GPIO13";
                  "GPIO14"; "GPIO15"];
     pwm_pins := ["GPIO0"; "GPIO1"; "GPIO2"; "GPIO3"; "GPIO4"; "GPIO5";
                  "GPIO12"; "GPIO13"; "GPIO14"; "GPIO15"; "GPIO16"; "GPIO17";
                  "GPIO18"; "GPIO19"; "GPIO21"; "GPIO22"; "GPIO23"; "GPIO25";
                  "GPIO26"; "GPIO27"; "GPIO32"; "GPIO33"];
     power_pins := ["3V3"; "VIN"; "GND1"; "GND2"; "GND3"];
     input_only_pins := pins_of_type "Input only" ps;
     in_out_pins := pins_of_type "Input/Output" ps |}.

(** [ESP32PinData.get_pin_category]. *)
Definition get_pin_category (d : ESP32PinData) (pin_id : string) : string :=
  if Py.str_in pin_id (i2c_pins d) then "i2c"
  else if Py.str_in pin_id (adc_pins d) then "adc"
  else if Py.str_in pin_id (spi_pins d) then "spi"
  else if Py.str_in pin_id (pwm_pins d) then "pwm"
  else if Py.str_in pin_id (power_pins d) then "power"
  else "default".

(** ** [layout_config.py] *)

Module LayoutConfig.
Definition WINDOW_WIDTH : Z := 1500.
Definition WINDOW_HEIGHT : Z := 800.
Definition IMAGE_WIDTH : Z := 300.
Definition PIN_BUTTON_WIDTH : Z := 36.
Definition PIN_BUTTON_HEIGHT : Z := 20.
Definition PIN_VERTICAL_STEP : Z := 27.

(** [IMAGE_ASPECT_RATIO = 214 / 105] is kept as a fraction:
    [int(width * IMAGE_ASPECT_RATIO)] is the truncated quotient. *)
Definition get_image_dimensions : Z * Z :=
  let width := IMAGE_WIDTH in
  (width, Py.int_div (width * 214) 105).

Definition get_image_position : Z * Z * Z * Z :=
  let '(width, height) := get_image_dimensions in
  (Py.int_div (WINDOW_WIDTH - width) 2,
   Py.int_div (WINDOW_WIDTH + width) 2,
   Py.int_div (WINDOW_HEIGHT - height) 2,
   Py.int_div (WINDOW_HEIGHT + height) 2).
End LayoutConfig.

(** ** [pin_button.py] *)

(** The two style sheets a pin button can carry: the transparent one set by
    [_apply_style] and the filled one set by [_highlight_button]; both are
    determined by the hover colour of the pin's category. *)
Inductive stylesheet : Type :=
| BaseStyle (hover_color : string)
| HighlightStyle (hover_color : string).

(** [original_style] is an attribute that exists only once
    [_highlight_button] has stored it ([hasattr] is [Some]). *)
Record PinButton : Type := mkButton
  { pin_id : string;
    btn_x : Z;
    btn_y : Z;
    btn_width : Z;
    btn_height : Z;
    styleSheet : stylesheet;
    original_style : option stylesheet }.

Definition HOVER_COLORS : list (string * string) :=
  [ ("i2c", "rgba(0, 128, 255, 80)");
    ("adc", "rgba(0, 200, 0, 80)");
    ("spi", "rgba(192, 192, 192, 80)");
    ("pwm", "rgba(255, 165, 0, 80)");
    ("power", "rgba(150, 98, 254, 80)");
    ("input_only", "rgba(247, 0, 255, 80)");
    ("in_out", "rgba(0, 195, 255, 80)");
    ("default", "rgba(255, 0, 0, 80)") ].

(** [HOVER_COLORS.get(category, HOVER_COLORS['default'])]. *)
Definition hover_color_of (category : string) : string :=
  match Py.dict_get category HOVER_COLORS with
  | Some c => c
  | None => "rgba(255, 0, 0, 80)"
  end.

(** [PinButton.__init__], with [_apply_style]. *)
Definition PinButton_init (id : string) (x y w h : Z) (pin_category : string)
  : PinButton :=
  mkButton id x y w h (BaseStyle (hover_color_of pin_category)) None.

Definition setStyleSheet (st : stylesheet) (b : PinButton) : PinButton :=
  mkButton (pin_id b) (btn_x b) (btn_y b) (btn_width b) (btn_height b)
           st (original_style b).

Definition set_original_style (st : stylesheet) (b : PinButton) : PinButton :=
  mkButton (pin_id b) (btn_x b) (btn_y b) (btn_width b) (btn_height b)
           (styleSheet b) (Some st).

(** ** [Pinout_GUI.py]: the application object *)

(** An entry of [pin_history]: [('pin', pin_id)] or
    [('category', (category_key, category_name))]. *)
Inductive view : Type :=
| PinView (pin_id : string)
| CategoryView (category_key category_name : string).

(** The arrow [QLabel] placed next to a highlighted button. *)
Record ArrowLabel : Type := mkArrow
  { arrow_text : string;
    arrow_x : Z;
    arrow_y : Z;
    arrow_width : Z;
    arrow_height : Z;
    arrow_color_of : string }.

(** The widgets added to [info_layout]. *)
Inductive widget : Type :=
| QLabel (text : string) (class : string)
| OvalTagLabel (text : string) (color : string)
| PinTagButton (text : string) (color : string) (target_pin : string)
| Stretch.

Record PinoutApp : Type := mkApp
  { pin_data : ESP32PinData;
    pin_buttons : list (string * PinButton);
    highlighted_buttons : list string;
    arrow_labels : list ArrowLabel;
    pin_history : list view;
    history_index : Z;
    back_button_enabled : bool;
    forward_button_enabled : bool;
    info_layout : list widget;
    content_width : Z }.

(** [highlighted_buttons] holds references to button objects that also live
    in [pin_buttons]; a reference is modelled by the button's key in
    [pin_buttons] (every button is stored under its own [pin_id]), and the
    objects themselves are read and written through [pin_buttons]. *)

Definition with_pin_buttons (v : list (string * PinButton)) (s : PinoutApp) :=
  mkApp (pin_data s) v (highlighted_buttons s) (arrow_labels s)
        (pin_history s) (history_index s) (back_button_enabled s)
        (forward_button_enabled s) (info_layout s) (content_width s).

Definition with_highlighted_buttons (v : list string) (s : PinoutApp) :=
  mkApp (pin_data s) (pin_buttons s) v (arrow_labels s)
        (pin_history s) (history_index s) (back_button_enabled s)
        (forward_button_enabled s) (info_layout s) (content_width s).

Definition with_arrow_labels (v : list ArrowLabel) (s : PinoutApp) :=
  mkApp (pin_data s) (pin_buttons s) (highlighted_buttons s) v
        (pin_history s) (history_index s) (back_button_enabled s)
        (forward_button_enabled s) (info_layout s) (content_width s).

Definition with_pin_history (v : list view) (s : PinoutApp) :=
  mkApp (pin_data s) (pin_buttons s) (highlighted_buttons s) (arrow_labels s)
        v (history_index s) (back_button_enabled s)
        (forward_button_enabled s) (info_layout s) (content_width s).

Definition with_history_index (v : Z) (s : PinoutApp) :=
  mkApp (pin_data s) (pin_buttons s) (highlighted_buttons s) (arrow_labels s)
        (pin_history s) v (back_button_enabled s)
        (forward_button_enabled s) (info_layout s) (content_width s).

Definition with_navigation_enabled (back forward : bool) (s : PinoutApp) :=
  mkApp (pin_data s) (pin_buttons s) (highlighted_buttons s) (arrow_labels s)
        (pin_history s) (history_index s) back forward
        (info_layout s) (content_width s).

Definition with_info_layout (v : list widget) (s : PinoutApp) :=
  mkApp (pin_data s) (pin_buttons s) (highlighted_buttons s) (arrow_labels s)
        (pin_history s) (history_index s) (back_button_enabled s)
        (forward_button_enabled s) v (content_width s).

(** *** The monad of methods: state of [self] and Python exceptions *)

Inductive exn : Type := IndexError.

Inductive result (A : Type) : Type :=
| Ok (a : A) (s : PinoutApp)
| Raise (e : exn) (s : PinoutApp).
Arguments Ok {A} a s.
Arguments Raise {A} e s.

Definition M (A : Type) : Type := PinoutApp -> result A.

Definition ret {A : Type} (a : A) : M A := fun s => Ok a s.

Definition bind {A B : Type} (c : M A) (k : A -> M B) : M B :=
  fun s => match c s with
           | Ok a s' => k a s'
           | Raise e s' => Raise e s'
           end.

Definition raise {A : Type} (e : exn) : M A := fun s => Raise e s.
Definition self : M PinoutApp := fun s => Ok s s.
Definition modify (f : PinoutApp -> PinoutApp) : M unit := fun s => Ok tt (f s).

Declare Scope method_scope.
Delimit Scope method_scope with method.
Notation "x <- c ;; k" := (bind c (fun x => k))
  (at level 61, c at next level, right associativity) : method_scope.
Notation "c ;; k" := (bind c (fun _ => k))
  (at level 61, right associativity) : method_scope.
Open Scope method_scope.

(** A [for] loop whose body is a method. *)
Fixpoint for_each {A : Type} (l : list A) (body : A -> M unit) : M unit :=
  match l with
  | [] => ret tt
  | a :: l' => body a ;; for_each l' body
  end.

(** The final state of a method call, whether it returned or raised. *)
Definition state_of {A : Type} (r : result A) : PinoutApp :=
  match r with Ok _ s => s | Raise _ s => s end.

(** *** Construction *)

(** [_get_pin_positions]. *)
Definition _get_pin_positions : list (string * (Z * Z * Z * Z)) :=
  let '(img_start, img_end, _, img_bottom) := LayoutConfig.get_image_position in
  let pin_right := img_end - 35 in
  let pin_left := img_start in
  let step := LayoutConfig.PIN_VERTICAL_STEP in
  let gpio0_y := img_bottom - 182 in
  let w := LayoutConfig.PIN_BUTTON_WIDTH in
  let h := LayoutConfig.PIN_BUTTON_HEIGHT in
  [ ("GPIO0", (pin_right, gpio0_y, w, h));
    ("GPIO1", (pin_right, gpio0_y - step * 10 - 4, w, h));
    ("GPIO2", (pin_right, gpio0_y + step + 1, w, h));
    ("GPIO3", (pin_right, gpio0_y - step * 9 - 3, w, h));
    ("GPIO4", (pin_right, gpio0_y - step, w, h));
    ("GPIO5", (pin_right, gpio0_y - step * 4 - 1, w, h));
    ("GPIO6", (pin_right, gpio0_y + step * 5 + 2, w, h));
    ("GPIO7", (pin_right, gpio0_y + step * 4 + 2, w, h));
    ("GPIO8", (pin_right, gpio0_y + step * 3 + 2, w, h));
    ("GPIO9", (pin_left, gpio0_y + step * 2 + 1, w, h));
    ("GPIO10", (pin_left, gpio0_y + step * 3 + 2, w, h));
    ("GPIO11", (pin_left, gpio0_y + step * 4 + 2, w, h));
    ("GPIO12", (pin_left, gpio0_y - step, w, h));
    ("GPIO13", (pin_left, gpio0_y + step + 1, w, h));
    ("GPIO14", (pin_left, gpio0_y - step * 2, w, h));
    ("GPIO15", (pin_right, gpio0_y + step * 2 + 1, w, h));
    ("GPIO16", (pin_right, gpio0_y - step * 2, w, h));
    ("GPIO17", (pin_right, gpio0_y - step * 3 - 1, w, h));
    ("GPIO18", (pin_right, gpio0_y - step * 5 - 2, w, h));
    ("GPIO19", (pin_right, gpio0_y - step * 6 - 2, w, h));
    ("GPIO21", (pin_right, gpio0_y - step * 8 - 3, w, h));
    ("GPIO22", (pin_right, gpio0_y - step * 11 - 4, w, h));
    ("GPIO23", (pin_right, gpio0_y - step * 12 - 4, w, h));
    ("GPIO25", (pin_left, gpio0_y - step * 5 - 2, w, h));
    ("GPIO26", (pin_left, gpio0_y - step * 4 - 1, w, h));
    ("GPIO27", (pin_left, gpio0_y - step * 3 - 1, w, h));
    ("GPIO32", (pin_left, gpio0_y - step * 7 - 2, w, h));
    ("GPIO33", (pin_left, gpio0_y - step * 6 - 2, w, h));
    ("GPIO34", (pin_left, gpio0_y - step * 9 - 3, w, h));
    ("GPIO35", (pin_left, gpio0_y - step * 8 - 3, w, h));
    ("GPIO36", (pin_left, gpio0_y - step * 11 - 4, w, h));
    ("GPIO39", (pin_left, gpio0_y - step * 10 - 4, w, h));
    ("EN", (pin_left, gpio0_y - step * 12 - 4, w, h));
    ("VIN", (pin_left, gpio0_y + step * 5 + 2, w, h));
    ("GND1", (pin_right, gpio0_y - step * 7 - 2, w, h));
    ("GND2", (pin_right, gpio0_y - step * 13 - 5, w, h));
    ("GND3", (pin_left, gpio0_y, w, h));
    ("3V3", (pin_left, gpio0_y - step * 13 - 5, w, h)) ].

(** [_create_pin_buttons]: one button per position, stored under its id. *)
Definition _create_pin_buttons (d : ESP32PinData) : list (string * PinButton) :=
  map (fun '(id, (x, y, w, h)) =>
         (id, PinButton_init id x y w h (get_pin_category d id)))
      _get_pin_positions.

(** [PinoutApp.__init__]: empty history at index [-1], both navigation
    buttons disabled by [_create_navigation_buttons], the placeholder label
    in the info box.  The width of the content widget is decided by the
    window system (at least [WINDOW_WIDTH]) and is a parameter here. *)
Definition PinoutApp_init (width : Z) : PinoutApp :=
  let d := ESP32PinData_init in
  {| pin_data := d;
     pin_buttons := _create_pin_buttons d;
     highlighted_buttons := [];
     arrow_labels := [];
     pin_history := [];
     history_index := -1;
     back_button_enabled := false;
     forward_button_enabled := false;
     info_layout := [QLabel "Click on a pin to view information..." "placeholder_label"];
     content_width := width |}.

(** *** Navigation buttons *)

(** [_update_navigation_buttons]. *)
Definition _update_navigation_buttons : M unit :=
  modify (fun s =>
    with_navigation_enabled
      (history_index s >? 0)
      (history_index s <? Py.len (pin_history s) - 1) s).

(** *** Highlights *)

(** The body of the first loop of [_clear_highlights], on one button. *)
Definition restore_style (b : PinButton) : PinButton :=
  match original_style b with
  | Some st => setStyleSheet st b
  | None => b
  end.

(** [_clear_highlights]. *)
Definition _clear_highlights : M unit :=
  s <- self ;;
  for_each (highlighted_buttons s)
    (fun btn => modify (fun s =>
       with_pin_buttons (Py.dict_modify btn restore_style (pin_buttons s)) s)) ;;
  modify (with_highlighted_buttons []) ;;
  (* every arrow label is scheduled for deletion, then the list is emptied *)
  modify (with_arrow_labels []).

(** The arrow of [_highlight_button]: it points right for a button in the
    left half of the content widget ([x < width / 2]) and left otherwise. *)
Definition arrow_for (width : Z) (hover_color : string) (b : PinButton) : ArrowLabel :=
  let left := 2 * btn_x b <? width in
  {| arrow_text := if left then "►" else "◄";
     arrow_x := if left then btn_x b - (Py.int_div (btn_width b) 2 + 5)
                else btn_x b + btn_width b + 5;
     arrow_y := btn_y b + 2;
     arrow_width := 25;
     arrow_height := btn_height b - 4;
     arrow_color_of := hover_color |}.

(** [_highlight_button], on the button stored under [btn]. *)
Definition _highlight_button (btn : string) : M unit :=
  s <- self ;;
  match Py.dict_get btn (pin_buttons s) with
  | None => ret tt
  | Some button =>
      let hover_color := hover_color_of (get_pin_category (pin_data s) (pin_id button)) in
      modify (fun s =>
        with_pin_buttons
          (Py.dict_modify btn
             (fun b =>
                setStyleSheet (HighlightStyle hover_color)
                  (match original_style b with
                   | None => set_original_style (styleSheet b) b
                   | Some _ => b
                   end))
             (pin_buttons s)) s) ;;
      modify (fun s =>
        with_arrow_labels
          (arrow_labels s ++ [arrow_for (content_width s) hover_color button]) s)
  end.

(** *** The info box *)

Definition tag_colors : list string :=
  ["#3498db"; "#9b59b6"; "#e74c3c"; "#f39c12"; "#1abc9c"; "#34495e"].

(** [colors[i % len(colors)]]. *)
Definition tag_color (i : nat) : string :=
  nth (i mod length tag_colors) tag_colors "".

(** [enumerate(l)]. *)
Fixpoint enumerate_from {A : Type} (i : nat) (l : list A) : list (nat * A) :=
  match l with
  | [] => []
  | a :: l' => (i, a) :: enumerate_from (S i) l'
  end.

Definition enumerate {A : Type} (l : list A) : list (nat * A) :=
  enumerate_from 0 l.

(** The widgets [show_pin_info] puts in the (emptied) info box for [pin]. *)
Definition pin_info_widgets (pin : Pin) : list widget :=
  [ QLabel (name pin) "pin_name";
    QLabel "Type:" "section_header";
    OvalTagLabel (pin_type pin) "#16a085";
    QLabel "Functions:" "section_header" ]
  ++ map (fun '(i, func) => OvalTagLabel func (tag_color i)) (enumerate (functions pin))
  ++ (if String.eqb (note pin) "" then []
      else [QLabel ("⚠ Note: " ++ note pin)%string "note_label"])
  ++ [Stretch].

(** [_display_category_info]: the header with the number of resolved pins,
    then one clickable tag per pin of [sorted(pins)] that the dataset
    knows, coloured by its position in the sorted list. *)
Definition _display_category_info (category_name : string) (pins_ : list string)
  : M unit :=
  s <- self ;;
  modify (with_info_layout
    ([ QLabel (category_name ++ " (" ++ Py.str_of_nat (length pins_) ++ " pins)")%string
              "category_header";
       QLabel "Pins in this category:" "section_header" ]
     ++ flat_map
          (fun '(i, id) =>
             match Py.dict_get id (pins (pin_data s)) with
             | Some pin_info => [PinTagButton (name pin_info) (tag_color i) id]
             | None => []
             end)
          (enumerate (Py.sorted pins_))
     ++ [Stretch])).

(** *** Views *)

(** The history part shared by [show_pin_info] and [show_category_pins]
    (the body of [if not from_navigation:]). *)
Definition record_view (entry : view) : M unit :=
  s <- self ;;
  (if history_index s <? Py.len (pin_history s) - 1
   then modify (fun s =>
          with_pin_history (Py.slice_to (pin_history s) (history_index s + 1)) s)
   else ret tt) ;;
  modify (fun s => with_pin_history (pin_history s ++ [entry]) s) ;;
  modify (fun s => with_history_index (Py.len (pin_history s) - 1) s) ;;
  _update_navigation_buttons.

(** [show_pin_info]. *)
Definition show_pin_info (pin_id : string) (from_navigation : bool) : M unit :=
  _clear_highlights ;;
  (if negb from_navigation then record_view (PinView pin_id) else ret tt) ;;
  s <- self ;;
  match Py.dict_get pin_id (pins (pin_data s)) with
  | Some pin => modify (with_info_layout (pin_info_widgets pin))
  | None => ret tt
  end.

(** The pins [show_category_pins] resolves for a key (its [if]/[elif]
    chain): five stored lists, two lists derived from the pin types, and a
    last branch for every other key, which takes the keys of [pin_buttons]
    that are in none of the seven lists and start with [GPIO]. *)
Definition category_pins (d : ESP32PinData) (buttons : list (string * PinButton))
           (category_key : string) : list string :=
  if String.eqb category_key "i2c" then i2c_pins d
  else if String.eqb category_key "adc" then adc_pins d
  else if String.eqb category_key "spi" then spi_pins d
  else if String.eqb category_key "pwm" then pwm_pins d
  else if String.eqb category_key "power" then power_pins d
  else if String.eqb category_key "Input only" then input_only_pins d
  else if String.eqb category_key "Input/Output" then in_out_pins d
  else
    let all_categorized :=
      i2c_pins d ++ adc_pins d ++ spi_pins d ++ pwm_pins d ++ power_pins d
      ++ input_only_pins d ++ in_out_pins d in
    filter (fun pin_id => negb (Py.str_in pin_id all_categorized)
                          && String.prefix "GPIO" pin_id)
           (Py.dict_keys buttons).

(** [show_category_pins]. *)
Definition show_category_pins (category_key category_name : string)
           (from_navigation : bool) : M unit :=
  _clear_highlights ;;
  (if negb from_navigation
   then record_view (CategoryView category_key category_name) else ret tt) ;;
  s <- self ;;
  let pins_ := category_pins (pin_data s) (pin_buttons s) category_key in
  for_each pins_
    (fun pin_id => s <- self ;;
       match Py.dict_get pin_id (pin_buttons s) with
       | Some _ =>
           _highlight_button pin_id ;;
           modify (fun s => with_highlighted_buttons (highlighted_buttons s ++ [pin_id]) s)
       | None => ret tt
       end) ;;
  _display_category_info category_name pins_.

(** *** Back and forward *)

(** [self.pin_history[self.history_index]]. *)
Definition current_entry : M view :=
  s <- self ;;
  match Py.index (pin_history s) (history_index s) with
  | Some e => ret e
  | None => raise IndexError
  end.

(** Re-rendering of a history entry, with [from_navigation=True]. *)
Definition replay (e : view) : M unit :=
  match e with
  | PinView data => show_pin_info data true
  | CategoryView category_key category_name =>
      show_category_pins category_key category_name true
  end.

(** [_navigate_back]. *)
Definition _navigate_back : M unit :=
  s <- self ;;
  if history_index s >? 0 then
    modify (fun s => with_history_index (history_index s - 1) s) ;;
    e <- current_entry ;;
    replay e ;;
    _update_navigation_buttons
  else ret tt.

(** [_navigate_forward]. *)
Definition _navigate_forward : M unit :=
  s <- self ;;
  if history_index s <? Py.len (pin_history s) - 1 then
    modify (fun s => with_history_index (history_index s + 1) s) ;;
    e <- current_entry ;;
    replay e ;;
    _update_navigation_buttons
  else ret tt.

(** [mousePressEvent]. *)
Definition mousePressEvent : M unit :=
  s <- self ;;
  match highlighted_buttons s with
  | [] => ret tt
  | _ :: _ => _clear_highlights
  end.

(** *** The interactions of the user *)

(** A pin button or pin tag clicked, a legend entry clicked, the back and
    forward buttons (or Ctrl+Z and Ctrl+Shift+Z), a click on the window. *)
Inductive event : Type :=
| PinClicked (pin_id : string)
| CategoryClicked (category_key category_name : string)
| BackRequested
| ForwardRequested
| WindowClicked.

Definition handle (ev : event) : M unit :=
  match ev with
  | PinClicked p => show_pin_info p false
  | CategoryClicked k n => show_category_pins k n false
  | BackRequested => _navigate_back
  | ForwardRequested => _navigate_forward
  | WindowClicked => mousePressEvent
  end.

(** A session: the handlers of a list of events, one after the other.  An
    exception that leaves a handler ends the session. *)
Definition run (evs : list event) : M unit := for_each evs handle.

(** [visit e] is the direct interaction that opens the view [e]: the call
    with [from_navigation=False] that a click on a pin or on a legend entry
    makes. *)
Definition visit (e : view) : M unit :=
  match e with
  | PinView p => show_pin_info p false
  | CategoryView k n => show_category_pins k n false
  end.

(** The keys of a dict literal are pairwise distinct when this check
    succeeds. *)
Fixpoint distinct (l : list string) : bool :=
  match l with
  | [] => true
  | x :: l' => negb (Py.str_in x l') && distinct l'
  end.

(** ** Specifications of methods *)

(** [returns c s Q]: called on the object [s], the method [c] returns
    normally (it raises nothing), with a value and a final object that
    satisfy [Q]. *)
Definition returns {A : Type} (c : M A) (s : PinoutApp)
           (Q : A -> PinoutApp -> Prop) : Prop :=
  exists a s', c s = Ok a s' /\ Q a s'.

(** The history as the user sees it: the entries, the position, and the
    two navigation buttons. *)
Definition history_of (s : PinoutApp) : list view * Z * bool * bool :=
  (pin_history s, history_index s, back_button_enabled s, forward_button_enabled s).

Definition same_history (s s' : PinoutApp) : Prop :=
  history_of s' = history_of s.

(** What [setStyleSheet] and [original_style] leave alone in a button. *)
Definition geometry (b : PinButton) : string * Z * Z * Z * Z :=
  (pin_id b, btn_x b, btn_y b, btn_width b, btn_height b).

Definition layout_of (buttons : list (string * PinButton))
  : list (string * (string * Z * Z * Z * Z)) :=
  map (fun kv => (fst kv, geometry (snd kv))) buttons.

(** What no method changes after construction: the dataset, the buttons
    with their keys and places, the width of the content widget. *)
Definition frame_of (s : PinoutApp) :=
  (pin_data s, layout_of (pin_buttons s), content_width s).

Definition same_frame (s s' : PinoutApp) : Prop :=
  frame_of s' = frame_of s.

(** The pins of a list that have a button, in the order of the list. *)
Definition highlightable (s : PinoutApp) (l : list string) : list string :=
  filter (fun p => Py.str_in p (Py.dict_keys (pin_buttons s))) l.

(** The arrow [_highlight_button] creates for the button of pin [p]. *)
Definition arrow_of (s : PinoutApp) (p : string) : list ArrowLabel :=
  match Py.dict_get p (pin_buttons s) with
  | Some b =>
      [arrow_for (content_width s)
                 (hover_color_of (get_pin_category (pin_data s) (pin_id b))) b]
  | None => []
  end.

(** The invariant of the history: the index is [-1] or a position of the
    list. *)
Definition history_ok (s : PinoutApp) : Prop :=
  -1 <= history_index s < Py.len (pin_history s).

(** The navigation buttons show what the history allows. *)
Definition buttons_ok (s : PinoutApp) : Prop :=
  back_button_enabled s = (history_index s >? 0) /\
  forward_button_enabled s = (history_index s <? Py.len (pin_history s) - 1).

(** The state [_clear_highlights] leaves. *)
Definition cleared (s : PinoutApp) : PinoutApp :=
  with_arrow_labels []
    (with_highlighted_buttons []
       (with_pin_buttons
          (fold_left (fun bs btn => Py.dict_modify btn restore_style bs)
                     (highlighted_buttons s) (pin_buttons s)) s)).

(** The state [record_view] leaves. *)
Definition recorded (entry : view) (s : PinoutApp) : PinoutApp :=
  let kept := if history_index s <? Py.len (pin_history s) - 1
              then Py.slice_to (pin_history s) (history_index s + 1)
              else pin_history s in
  let h := kept ++ [entry] in
  with_navigation_enabled (Py.len h - 1 >? 0) (Py.len h - 1 <? Py.len h - 1)
    (with_history_index (Py.len h - 1) (with_pin_history h s)).

(** The state [show_pin_info] leaves. *)
Definition shown_pin (p : string) (from_navigation : bool) (s : PinoutApp)
  : PinoutApp :=
  let s1 := cleared s in
  let s2 := if negb from_navigation then recorded (PinView p) s1 else s1 in
  match Py.dict_get p (pins (pin_data s2)) with
  | Some pin => with_info_layout (pin_info_widgets pin) s2
  | None => s2
  end.

(** The widgets [_display_category_info] puts in the info box. *)
Definition category_widgets (d : ESP32PinData) (category_name : string)
           (pins_ : list string) : list widget :=
  [ QLabel (category_name ++ " (" ++ Py.str_of_nat (length pins_) ++ " pins)")%string
           "category_header";
    QLabel "Pins in this category:" "section_header" ]
  ++ flat_map
       (fun '(i, id) =>
          match Py.dict_get id (pins d) with
          | Some pin_info => [PinTagButton (name pin_info) (tag_color i) id]
          | None => []
          end)
       (enumerate (Py.sorted pins_))
  ++ [Stretch].

(** The common part of [_navigate_back] and [_navigate_forward]: move the
    index to [i], replay the entry found there, refresh the buttons. *)
Definition go_to (i : Z) : M unit :=
  modify (with_history_index i) ;;
  e <- current_entry ;;
  replay e ;;
  _update_navigation_buttons.

(** The keys [show_category_pins] tests for before its last branch. *)
Definition stored_keys : list string :=
  ["i2c"; "adc"; "spi"; "pwm"; "power"; "Input only"; "Input/Output"].

(** The five membership lists of the dataset that are written out. *)
Definition listed_pins (d : ESP32PinData) : list string :=
  i2c_pins d ++ adc_pins d ++ spi_pins d ++ pwm_pins d ++ power_pins d.

(** The application: the dataset as shipped and the buttons made for it. *)
Definition shipped_data : ESP32PinData := ESP32PinData_init.
Definition shipped_buttons : list (string * PinButton) :=
  _create_pin_buttons ESP32PinData_init.

(** The style sheets of the buttons agree with the highlight list: a
    button that is not in [highlighted_buttons] carries its base style, and
    the style remembered in [original_style] is always the base one. *)
Definition is_base (st : stylesheet) : bool :=
  match st with BaseStyle _ => true | HighlightStyle _ => false end.

Definition button_ok (highlighted : bool) (b : PinButton) : bool :=
  (is_base (styleSheet b) || highlighted)
  && is_base (match original_style b with
              | Some st => st
              | None => styleSheet b
              end).

Definition style_ok (s : PinoutApp) : Prop :=
  forall k b,
    Py.dict_get k (pin_buttons s) = Some b ->
    button_ok (Py.str_in k (highlighted_buttons s)) b = true.

(** ** Further parts of the application *)

(** The six names [get_pin_category] can return. *)
Definition category_names : list string :=
  ["i2c"; "adc"; "spi"; "pwm"; "power"; "default"].

(** [categories_data] of [_create_legend]: display name, legend colour and
    key of each legend entry, from top to bottom. *)
Definition categories_data : list (string * string * string) :=
  [ ("I2C Pins", "#0080FF", "i2c");
    ("ADC Pins", "#00C800", "adc");
    ("SPI Pins", "#C0C0C0", "spi");
    ("PWM Pins", "#FFA500", "pwm");
    ("Power Pins", "#9662FE", "power");
    ("Input Only Pins", "#F700FF", "Input only");
    ("In/Out Pins", "#00C3FF", "Input/Output");
    ("Other GPIO", "#FF0000", "default") ].

(** The slot [_create_legend] connects to the button of a legend entry:
    [lambda checked, key=category_key, name=category_name:
    self.show_category_pins(key, name)]. *)
Definition legend_clicked (entry : string * string * string) : M unit :=
  let '(category_name, _, category_key) := entry in
  show_category_pins category_key category_name false.


(** Two buttons share a pixel: their rectangles (left, top, width, height)
    intersect. *)
Definition overlap (b1 b2 : PinButton) : bool :=
  (btn_x b1 <? btn_x b2 + btn_width b2) && (btn_x b2 <? btn_x b1 + btn_width b1)
  && (btn_y b1 <? btn_y b2 + btn_height b2) && (btn_y b2 <? btn_y b1 + btn_height b1).

(** [keyPressEvent]: Ctrl+Shift+Z goes forward, Ctrl+Z goes back, every
    other key is left to the base class, which does nothing to the
    application object.  The values of [Qt.ControlModifier],
    [Qt.ShiftModifier] and [Qt.Key_Z] belong to Qt and are parameters. *)
Definition keyPressEvent (ControlModifier ShiftModifier Key_Z : Z)
           (modifiers key : Z) : M unit :=
  if (modifiers =? Z.lor ControlModifier ShiftModifier) && (key =? Key_Z)
  then _navigate_forward
  else if (modifiers =? ControlModifier) && (key =? Key_Z)
  then _navigate_back
  else ret tt.

(** What the info box shows for a history entry: the panel of the pin when
    the dataset knows it (otherwise [show_pin_info] draws nothing), the list
    of the category. *)
Definition rendering (d : ESP32PinData) (buttons : list (string * PinButton))
           (e : view) : option (list widget) :=
  match e with
  | PinView p => option_map pin_info_widgets (Py.dict_get p (pins d))
  | CategoryView key cname =>
      Some (category_widgets d cname (category_pins d buttons key))
  end.

(** The view an event opens, if it is a click on a pin or a legend entry. *)
Definition view_of_event (ev : event) : list view :=
  match ev with
  | PinClicked p => [PinView p]
  | CategoryClicked key cname => [CategoryView key cname]
  | _ => []
  end.

(** The pins the tags of an info box lead to, in the order of the tags. *)
Definition tag_targets (ws : list widget) : list string :=
  flat_map (fun w => match w with
                     | PinTagButton _ _ target => [target]
                     | _ => []
                     end) ws.

(** The info box as [_create_info_box] leaves it. *)
Definition placeholder_layout : list widget :=
  [QLabel "Click on a pin to view information..." "placeholder_label"].

(** The info box agrees with the history: the placeholder while nothing
    was viewed, and afterwards what the current entry renders to (an entry
    for a pin the dataset does not know renders to nothing and says
    nothing about the box). *)
Definition display_ok (s : PinoutApp) : Prop :=
  (history_index s = -1 /\ pin_history s = [] /\
   info_layout s = placeholder_layout) \/
  (0 <= history_index s /\
   exists e, Py.index (pin_history s) (history_index s) = Some e /\
             match rendering (pin_data s) (pin_buttons s) e with
             | Some ws => info_layout s = ws
             | None => True
             end).

(** Showing a view: the method [_navigate_back] and [_navigate_forward]
    choose by the tag of the entry, which the click handlers call
    directly. *)
Definition show_view (e : view) (from_navigation : bool) : M unit :=
  match e with
  | PinView p => show_pin_info p from_navigation
  | CategoryView key cname => show_category_pins key cname from_navigation
  end.

(** The style sheets say exactly what is highlighted: a button in
    [highlighted_buttons] carries the highlight style and remembers its
    base style, every other button carries its base style; both have the
    hover colour of the category of the pin the button is stored under. *)
Definition style_exact (s : PinoutApp) : Prop :=
  forall k b,
    Py.dict_get k (pin_buttons s) = Some b ->
    let hc := hover_color_of (get_pin_category (pin_data s) k) in
    pin_id b = k /\
    styleSheet b = (if Py.str_in k (highlighted_buttons s)
                    then HighlightStyle hc else BaseStyle hc) /\
    (original_style b = Some (BaseStyle hc) \/
     (Py.str_in k (highlighted_buttons s) = false /\ original_style b = None)).

(** [shown e s s']: the object [s'] displays the entry [e] as the view
    methods draw it from [s]: the info box holds what [e] renders to (and is
    left as in [s] when that is nothing), and the highlight set is empty
    for a pin, and for a category the buttons and arrows of the pins
    resolved for its key. *)
Definition shown (e : view) (s s' : PinoutApp) : Prop :=
  match rendering (pin_data s) (pin_buttons s) e with
  | Some ws => info_layout s' = ws
  | None => info_layout s' = info_layout s
  end /\
  match e with
  | PinView _ => highlighted_buttons s' = [] /\ arrow_labels s' = []
  | CategoryView key _ =>
      let pins_ := category_pins (pin_data s) (pin_buttons s) key in
      highlighted_buttons s' = highlightable s pins_ /\
      arrow_labels s' = flat_map (arrow_of s) pins_
  end.

(** * Properties *)

(** ** Python lists and dicts *)

Lemma len_nonneg {A : Type} (l : list A) : 0 <= Py.len l.
Proof. unfold Py.len. lia. Qed.

Lemma len_app {A : Type} (l1 l2 : list A) :
  Py.len (l1 ++ l2) = Py.len l1 + Py.len l2.
Proof. unfold Py.len. rewrite length_app. lia. Qed.

Lemma slice_to_firstn {A : Type} (l : list A) (k : Z) :
  0 <= k -> Py.slice_to l k = firstn (Z.to_nat k) l.
Proof.
  intros Hk. unfold Py.slice_to.
  destruct (Z.ltb_spec k 0) as [Hlt | _]; [lia | reflexivity].
Qed.

Lemma index_in_range {A : Type} (l : list A) (i : Z) :
  0 <= i < Py.len l ->
  exists e, Py.index l i = Some e /\ nth_error l (Z.to_nat i) = Some e.
Proof.
  intros Hi. unfold Py.index.
  destruct (Z.leb_spec 0 i) as [_ | Hneg]; [| lia].
  destruct (Z.ltb_spec i (Py.len l)) as [_ | Hbig]; [| lia].
  cbn [andb].
  destruct (nth_error l (Z.to_nat i)) as [e |] eqn:Hnth.
  - exists e. split; reflexivity.
  - apply nth_error_None in Hnth. unfold Py.len in Hi. lia.
Qed.

Lemma str_in_In (x : string) (l : list string) :
  Py.str_in x l = true <-> In x l.
Proof.
  unfold Py.str_in. rewrite existsb_exists. split.
  - intros [y [Hin Heq]]. apply String.eqb_eq in Heq. subst. exact Hin.
  - intros Hin. exists x. split; [exact Hin | apply String.eqb_refl].
Qed.

Lemma str_in_false (x : string) (l : list string) :
  Py.str_in x l = false <-> ~ In x l.
Proof.
  rewrite <- str_in_In. destruct (Py.str_in x l); split; intros; congruence.
Qed.

Lemma dict_get_modify {V : Type} (k k' : string) (f : V -> V) (d : list (string * V)) :
  Py.dict_get k (Py.dict_modify k' f d) =
  if String.eqb k k' then option_map f (Py.dict_get k d) else Py.dict_get k d.
Proof.
  induction d as [| [k0 v] d IH]; cbn.
  - now destruct (String.eqb k k').
  - destruct (String.eqb_spec k' k0) as [-> | Hne]; cbn.
    + destruct (String.eqb_spec k k0) as [-> | Hne']; reflexivity.
    + destruct (String.eqb_spec k k0) as [-> | Hne'].
      * destruct (String.eqb_spec k0 k') as [<- | _]; [congruence | reflexivity].
      * exact IH.
Qed.

Lemma distinct_NoDup (l : list string) : distinct l = true -> NoDup l.
Proof.
  induction l as [| x l IH]; cbn; intros H.
  - constructor.
  - apply andb_true_iff in H as [Hx Hl]. constructor.
    + apply negb_true_iff in Hx. now apply str_in_false.
    + now apply IH.
Qed.

Lemma dict_get_NoDup {V : Type} (k : string) (v : V) (d : list (string * V)) :
  NoDup (Py.dict_keys d) -> (Py.dict_get k d = Some v <-> In (k, v) d).
Proof.
  unfold Py.dict_keys. induction d as [| [k' v'] d IH]; cbn; intros Hnd.
  - split; [discriminate | intros []].
  - inversion Hnd as [| ? ? Hnotin Hnd']; subst.
    destruct (String.eqb_spec k k') as [-> | Hne].
    + split.
      * intros [= ->]. now left.
      * intros [[= ->] | Hin]; [reflexivity |].
        exfalso. apply Hnotin. apply in_map_iff. now exists (k', v).
    + rewrite (IH Hnd'). split; [now right |].
      intros [[= -> ->] | Hin]; [congruence | exact Hin].
Qed.

(** ** Rules for [returns] *)

Lemma returns_ret {A : Type} (a : A) s (Q : A -> PinoutApp -> Prop) :
  Q a s -> returns (ret a) s Q.
Proof. intros H. exists a, s. split; [reflexivity | exact H]. Qed.

Lemma returns_self s (Q : PinoutApp -> PinoutApp -> Prop) :
  Q s s -> returns self s Q.
Proof. intros H. exists s, s. split; [reflexivity | exact H]. Qed.

Lemma returns_modify f s (Q : unit -> PinoutApp -> Prop) :
  Q tt (f s) -> returns (modify f) s Q.
Proof. intros H. exists tt, (f s). split; [reflexivity | exact H]. Qed.

Lemma returns_bind {A B : Type} (c : M A) (k : A -> M B) s
      (Q : B -> PinoutApp -> Prop) :
  returns c s (fun a s' => returns (k a) s' Q) -> returns (bind c k) s Q.
Proof.
  intros [a [s' [Hc [b [s'' [Hk HQ]]]]]].
  exists b, s''. split; [| exact HQ].
  unfold bind. rewrite Hc. exact Hk.
Qed.

Lemma returns_weaken {A : Type} (c : M A) s (Q Q' : A -> PinoutApp -> Prop) :
  returns c s Q -> (forall a s', Q a s' -> Q' a s') -> returns c s Q'.
Proof.
  intros [a [s' [Hc HQ]]] Himp. exists a, s'. split; [exact Hc | auto].
Qed.

Lemma returns_eq {A : Type} (c : M A) s a s' (Q : A -> PinoutApp -> Prop) :
  c s = Ok a s' -> Q a s' -> returns c s Q.
Proof. intros Hc HQ. exists a, s'. split; assumption. Qed.

Lemma returns_unit (c : M unit) s (Q : unit -> PinoutApp -> Prop) :
  returns c s Q -> exists s', c s = Ok tt s' /\ Q tt s'.
Proof. intros [[] [s' H]]. exists s'. exact H. Qed.

(** A loop keeps an invariant that may mention the elements already
    processed. *)
Lemma returns_for_each {A : Type} (body : A -> M unit)
      (I : list A -> PinoutApp -> Prop) :
  (forall done a s, I done s -> returns (body a) s (fun _ s' => I (done ++ [a]) s')) ->
  forall todo done s,
    I done s -> returns (for_each todo body) s (fun _ s' => I (done ++ todo) s').
Proof.
  intros Hbody todo. induction todo as [| a todo IH]; intros done s HI; cbn.
  - apply returns_ret. now rewrite app_nil_r.
  - apply returns_bind. eapply returns_weaken; [apply Hbody; exact HI |].
    cbn. intros _ s' HI'. eapply returns_weaken; [apply IH; exact HI' |].
    cbn. intros _ s'' H. now rewrite <- app_assoc in H.
Qed.

(** ** The setters touch one field each *)

Lemma with_pin_buttons_same s : with_pin_buttons (pin_buttons s) s = s.
Proof. now destruct s. Qed.

Lemma same_history_trans s1 s2 s3 :
  same_history s1 s2 -> same_history s2 s3 -> same_history s1 s3.
Proof. unfold same_history. congruence. Qed.

Lemma same_frame_trans s1 s2 s3 :
  same_frame s1 s2 -> same_frame s2 s3 -> same_frame s1 s3.
Proof. unfold same_frame. congruence. Qed.

(** ** [_clear_highlights] *)

Lemma clear_loop_run (l : list string) s :
  for_each l
    (fun btn => modify (fun s =>
       with_pin_buttons (Py.dict_modify btn restore_style (pin_buttons s)) s)) s
  = Ok tt (with_pin_buttons
             (fold_left (fun bs btn => Py.dict_modify btn restore_style bs)
                        l (pin_buttons s)) s).
Proof.
  revert s. induction l as [| b l IH]; intros s; cbn.
  - unfold ret. now rewrite with_pin_buttons_same.
  - unfold bind, modify. rewrite IH. now destruct s.
Qed.

Lemma clear_highlights_run s : _clear_highlights s = Ok tt (cleared s).
Proof.
  unfold _clear_highlights, bind, self. rewrite clear_loop_run. reflexivity.
Qed.

Lemma layout_modify (k : string) (f : PinButton -> PinButton) buttons :
  (forall b, geometry (f b) = geometry b) ->
  layout_of (Py.dict_modify k f buttons) = layout_of buttons.
Proof.
  intros Hf. unfold layout_of.
  induction buttons as [| [k' b] bs IH]; cbn [Py.dict_modify map].
  - reflexivity.
  - destruct (String.eqb k k'); cbn [map fst snd].
    + now rewrite Hf.
    + now rewrite IH.
Qed.

Lemma layout_keys buttons : Py.dict_keys buttons = map fst (layout_of buttons).
Proof.
  unfold Py.dict_keys, layout_of. rewrite map_map. reflexivity.
Qed.

Lemma layout_get (k : string) buttons :
  option_map geometry (Py.dict_get k buttons) = Py.dict_get k (layout_of buttons).
Proof.
  unfold layout_of. induction buttons as [| [k' b] bs IH]; cbn.
  - reflexivity.
  - destruct (String.eqb k k'); [reflexivity | exact IH].
Qed.

Lemma restore_style_geometry b : geometry (restore_style b) = geometry b.
Proof. unfold restore_style. now destruct (original_style b). Qed.

Lemma fold_restore_layout (l : list string) buttons :
  layout_of (fold_left (fun bs btn => Py.dict_modify btn restore_style bs) l buttons)
  = layout_of buttons.
Proof.
  revert buttons. induction l as [| b l IH]; intros buttons; cbn [fold_left].
  - reflexivity.
  - rewrite IH. apply layout_modify, restore_style_geometry.
Qed.

Lemma cleared_history s : same_history s (cleared s).
Proof. reflexivity. Qed.

Lemma cleared_frame s : same_frame s (cleared s).
Proof.
  unfold same_frame, frame_of. cbn. now rewrite fold_restore_layout.
Qed.

(** ** [record_view] *)

Lemma record_view_run entry s : record_view entry s = Ok tt (recorded entry s).
Proof.
  unfold record_view, bind, self, _update_navigation_buttons, modify, recorded.
  destruct (history_index s <? Py.len (pin_history s) - 1); reflexivity.
Qed.

Lemma recorded_frame entry s : same_frame s (recorded entry s).
Proof. reflexivity. Qed.

(** ** What the frame determines *)

Lemma frame_keys s s' :
  same_frame s s' -> Py.dict_keys (pin_buttons s') = Py.dict_keys (pin_buttons s).
Proof.
  unfold same_frame, frame_of. intros [= _ Hl _]. now rewrite !layout_keys, Hl.
Qed.

Lemma frame_data s s' : same_frame s s' -> pin_data s' = pin_data s.
Proof. unfold same_frame, frame_of. now intros [= Hd _ _]. Qed.

Lemma frame_arrow_of s s' p : same_frame s s' -> arrow_of s' p = arrow_of s p.
Proof.
  unfold same_frame, frame_of. intros [= Hd Hl Hw].
  assert (Hg : option_map geometry (Py.dict_get p (pin_buttons s'))
               = option_map geometry (Py.dict_get p (pin_buttons s)))
    by now rewrite !layout_get, Hl.
  unfold arrow_of. rewrite Hd, Hw.
  destruct (Py.dict_get p (pin_buttons s')) as [b' |],
           (Py.dict_get p (pin_buttons s)) as [b |]; cbn in Hg; try discriminate.
  - injection Hg as Hid Hx Hy Hwd Hh. unfold arrow_for.
    now rewrite Hid, Hx, Hy, Hwd, Hh.
  - reflexivity.
Qed.

Lemma frame_highlightable s s' l :
  same_frame s s' -> highlightable s' l = highlightable s l.
Proof. intros H. unfold highlightable. now rewrite (frame_keys _ _ H). Qed.

Lemma category_pins_keys d b b' key :
  Py.dict_keys b = Py.dict_keys b' -> category_pins d b key = category_pins d b' key.
Proof. intros H. unfold category_pins. now rewrite H. Qed.

Lemma frame_category_pins s s' key :
  same_frame s s' ->
  category_pins (pin_data s') (pin_buttons s') key
  = category_pins (pin_data s) (pin_buttons s) key.
Proof.
  intros H. rewrite (frame_data _ _ H).
  apply category_pins_keys, frame_keys, H.
Qed.

Lemma str_in_keys_get {V : Type} (p : string) (d : list (string * V)) :
  Py.str_in p (Py.dict_keys d) = match Py.dict_get p d with Some _ => true | None => false end.
Proof.
  unfold Py.dict_keys, Py.str_in. induction d as [| [k v] d IH]; cbn.
  - reflexivity.
  - destruct (String.eqb p k); [reflexivity | exact IH].
Qed.

(** ** [show_pin_info] *)

Lemma show_pin_info_run p nav s : show_pin_info p nav s = Ok tt (shown_pin p nav s).
Proof.
  unfold show_pin_info, shown_pin, bind. rewrite clear_highlights_run.
  destruct nav; cbn [negb].
  - unfold ret, self.
    destruct (Py.dict_get p (pins (pin_data (cleared s)))); reflexivity.
  - rewrite record_view_run. unfold self.
    destruct (Py.dict_get p (pins (pin_data (recorded (PinView p) (cleared s)))));
      reflexivity.
Qed.

Lemma shown_pin_frame p nav s : same_frame s (shown_pin p nav s).
Proof.
  unfold shown_pin.
  assert (H : same_frame s (if negb nav then recorded (PinView p) (cleared s) else cleared s)).
  { destruct nav; cbn [negb].
    - apply cleared_frame.
    - eapply same_frame_trans; [apply cleared_frame | apply recorded_frame]. }
  destruct (Py.dict_get p _); [| exact H].
  eapply same_frame_trans; [exact H | reflexivity].
Qed.

Lemma shown_pin_highlights p nav s :
  highlighted_buttons (shown_pin p nav s) = [] /\
  arrow_labels (shown_pin p nav s) = [].
Proof.
  unfold shown_pin. destruct nav; cbn [negb];
    destruct (Py.dict_get p _); split; reflexivity.
Qed.

Lemma shown_pin_history p nav s :
  history_of (shown_pin p nav s)
  = if nav then history_of s else history_of (recorded (PinView p) s).
Proof.
  unfold shown_pin. destruct nav; cbn [negb];
    destruct (Py.dict_get p _); reflexivity.
Qed.

(** ** The highlight loop of [show_category_pins] *)

Lemma highlight_style_geometry st b :
  geometry
    (setStyleSheet st
       (match original_style b with
        | None => set_original_style (styleSheet b) b
        | Some _ => b
        end)) = geometry b.
Proof. now destruct (original_style b). Qed.

Lemma highlight_button_spec p s :
  returns (_highlight_button p) s (fun _ s' =>
    same_history s s' /\ same_frame s s' /\
    info_layout s' = info_layout s /\
    highlighted_buttons s' = highlighted_buttons s /\
    arrow_labels s' = arrow_labels s ++ arrow_of s p).
Proof.
  unfold _highlight_button. apply returns_bind, returns_self.
  unfold arrow_of. destruct (Py.dict_get p (pin_buttons s)) as [b |].
  - apply returns_bind, returns_modify, returns_modify.
    repeat split.
    unfold same_frame, frame_of. cbn.
    now rewrite (layout_modify _ _ _ (highlight_style_geometry _)).
  - apply returns_ret. repeat split. cbn. now rewrite app_nil_r.
Qed.

Lemma highlight_body_spec p s :
  returns
    (s0 <- self ;;
     match Py.dict_get p (pin_buttons s0) with
     | Some _ =>
         _highlight_button p ;;
         modify (fun s => with_highlighted_buttons (highlighted_buttons s ++ [p]) s)
     | None => ret tt
     end) s
    (fun _ s' =>
       same_history s s' /\ same_frame s s' /\
       info_layout s' = info_layout s /\
       highlighted_buttons s' = highlighted_buttons s ++ highlightable s [p] /\
       arrow_labels s' = arrow_labels s ++ arrow_of s p).
Proof.
  apply returns_bind, returns_self.
  unfold highlightable. cbn [filter]. rewrite str_in_keys_get.
  destruct (Py.dict_get p (pin_buttons s)) as [b |] eqn:Hget.
  - apply returns_bind. eapply returns_weaken; [apply highlight_button_spec |].
    cbn beta. intros _ s' (Hh & Hf & Hi & Hb & Ha).
    apply returns_modify. cbn. rewrite Hb. repeat split; assumption.
  - apply returns_ret. unfold arrow_of. rewrite Hget, !app_nil_r.
    repeat split.
Qed.

Lemma highlightable_app s l1 l2 :
  highlightable s (l1 ++ l2) = highlightable s l1 ++ highlightable s l2.
Proof. apply filter_app. Qed.

Lemma highlight_loop_spec (l : list string) s :
  returns
    (for_each l
       (fun p => s0 <- self ;;
          match Py.dict_get p (pin_buttons s0) with
          | Some _ =>
              _highlight_button p ;;
              modify (fun s => with_highlighted_buttons (highlighted_buttons s ++ [p]) s)
          | None => ret tt
          end)) s
    (fun _ s' =>
       same_history s s' /\ same_frame s s' /\
       info_layout s' = info_layout s /\
       highlighted_buttons s' = highlighted_buttons s ++ highlightable s l /\
       arrow_labels s' = arrow_labels s ++ flat_map (arrow_of s) l).
Proof.
  pose (I := fun (done : list string) (s' : PinoutApp) =>
    same_history s s' /\ same_frame s s' /\
    info_layout s' = info_layout s /\
    highlighted_buttons s' = highlighted_buttons s ++ highlightable s done /\
    arrow_labels s' = arrow_labels s ++ flat_map (arrow_of s) done).
  refine (returns_for_each _ I _ l [] s _).
  - intros done p s1 (Hh & Hf & Hi & Hb & Ha).
    eapply returns_weaken; [apply highlight_body_spec |].
    cbn beta. intros _ s2 (Hh' & Hf' & Hi' & Hb' & Ha').
    unfold I. repeat split.
    + eapply same_history_trans; eassumption.
    + eapply same_frame_trans; eassumption.
    + congruence.
    + rewrite Hb', Hb, highlightable_app, (frame_highlightable _ _ _ Hf).
      now rewrite app_assoc.
    + rewrite Ha', Ha, flat_map_app, (frame_arrow_of _ _ _ Hf). cbn.
      now rewrite app_nil_r, app_assoc.
  - unfold I. cbn. rewrite !app_nil_r. repeat split.
Qed.

(** ** [show_category_pins] *)

Lemma display_category_info_run category_name pins_ s :
  _display_category_info category_name pins_ s
  = Ok tt (with_info_layout (category_widgets (pin_data s) category_name pins_) s).
Proof. reflexivity. Qed.

(** [show_category_pins] returns; it leaves the frame alone, records the
    view unless it replays it, and leaves as highlight set the buttons and
    arrows of the pins resolved for the key. *)
Lemma show_category_pins_spec key cname nav s :
  returns (show_category_pins key cname nav) s (fun _ s' =>
    let pins_ := category_pins (pin_data s) (pin_buttons s) key in
    same_frame s s' /\
    history_of s' = (if nav then history_of s
                     else history_of (recorded (CategoryView key cname) s)) /\
    highlighted_buttons s' = highlightable s pins_ /\
    arrow_labels s' = flat_map (arrow_of s) pins_ /\
    info_layout s' = category_widgets (pin_data s) cname pins_).
Proof.
  unfold show_category_pins.
  apply returns_bind. eapply returns_eq; [apply clear_highlights_run |].
  set (s1 := if negb nav then recorded (CategoryView key cname) (cleared s)
             else cleared s).
  assert (Hf1 : same_frame s s1).
  { subst s1. destruct nav; cbn [negb].
    - apply cleared_frame.
    - eapply same_frame_trans; [apply cleared_frame | apply recorded_frame]. }
  assert (Hh1 : history_of s1 = if nav then history_of s
                                else history_of (recorded (CategoryView key cname) s)).
  { subst s1. destruct nav; cbn [negb]; reflexivity. }
  assert (Hb1 : highlighted_buttons s1 = [] /\ arrow_labels s1 = []).
  { subst s1. destruct nav; cbn [negb]; split; reflexivity. }
  apply returns_bind.
  apply (returns_eq _ _ tt s1).
  { subst s1. destruct nav; cbn [negb]; [reflexivity | apply record_view_run]. }
  apply returns_bind, returns_self. cbn zeta.
  apply returns_bind.
  eapply returns_weaken; [apply highlight_loop_spec |].
  cbn beta. intros _ s2 (Hh2 & Hf2 & Hi2 & Hb2 & Ha2).
  eapply returns_eq; [apply display_category_info_run |].
  destruct Hb1 as [Hb1 Ha1]. rewrite Hb1 in Hb2. rewrite Ha1 in Ha2.
  cbn [app] in Hb2, Ha2.
  rewrite (frame_category_pins _ _ key Hf1) in *.
  repeat split.
  - eapply same_frame_trans; [exact Hf1 |].
    eapply same_frame_trans; [exact Hf2 | reflexivity].
  - change (history_of s2 = if nav then history_of s
                            else history_of (recorded (CategoryView key cname) s)).
    rewrite <- Hh1. exact Hh2.
  - cbn. rewrite Hb2. apply frame_highlightable, Hf1.
  - cbn. rewrite Ha2. apply flat_map_ext. intros p. apply frame_arrow_of, Hf1.
  - cbn. now rewrite (frame_data _ _ Hf2), (frame_data _ _ Hf1).
Qed.

(** ** Replay and navigation *)

Lemma replay_spec e s :
  returns (replay e) s (fun _ s' => same_history s s' /\ same_frame s s').
Proof.
  destruct e as [p | key cname]; cbn [replay].
  - eapply returns_eq; [apply show_pin_info_run |]. split.
    + unfold same_history. now rewrite shown_pin_history.
    + apply shown_pin_frame.
  - eapply returns_weaken; [apply show_category_pins_spec |].
    cbn. intros _ s' (Hf & Hh & _). split; assumption.
Qed.

Lemma navigate_back_go_to s :
  _navigate_back s
  = if history_index s >? 0 then go_to (history_index s - 1) s else Ok tt s.
Proof.
  unfold _navigate_back, go_to, bind, self.
  destruct (history_index s >? 0); reflexivity.
Qed.

Lemma navigate_forward_go_to s :
  _navigate_forward s
  = if history_index s <? Py.len (pin_history s) - 1
    then go_to (history_index s + 1) s else Ok tt s.
Proof.
  unfold _navigate_forward, go_to, bind, self.
  destruct (history_index s <? Py.len (pin_history s) - 1); reflexivity.
Qed.

(** Moving to a position of the list succeeds: the entry there is replayed
    and only the index and the buttons change in the history. *)
Lemma go_to_spec (i : Z) s :
  0 <= i < Py.len (pin_history s) ->
  exists e s',
    nth_error (pin_history s) (Z.to_nat i) = Some e /\
    go_to i s = Ok tt s' /\
    (replay e ;; _update_navigation_buttons) (with_history_index i s) = Ok tt s' /\
    pin_history s' = pin_history s /\
    history_index s' = i /\
    buttons_ok s' /\
    same_frame s s'.
Proof.
  intros Hi.
  destruct (index_in_range (pin_history s) i Hi) as [e [Hidx Hnth]].
  destruct (returns_unit _ _ _ (replay_spec e (with_history_index i s)))
    as [s1 [Hrun [Hh Hf]]].
  exists e, (with_navigation_enabled (history_index s1 >? 0)
               (history_index s1 <? Py.len (pin_history s1) - 1) s1).
  assert (Hgo : (replay e ;; _update_navigation_buttons) (with_history_index i s)
                = Ok tt (with_navigation_enabled (history_index s1 >? 0)
                           (history_index s1 <? Py.len (pin_history s1) - 1) s1)).
  { unfold bind. rewrite Hrun. reflexivity. }
  unfold same_history, history_of in Hh. cbn in Hh.
  injection Hh as Hhist Hind _ _.
  repeat split.
  - exact Hnth.
  - unfold go_to, bind at 1, modify. unfold bind at 1, current_entry, bind at 1, self.
    cbn [pin_history history_index with_history_index].
    rewrite Hidx. unfold ret. exact Hgo.
  - exact Hgo.
  - exact Hhist.
  - exact Hind.
  - exact Hf.
Qed.

Lemma navigate_back_history s :
  pin_history (state_of (_navigate_back s)) = pin_history s.
Proof.
  rewrite navigate_back_go_to. destruct (history_index s >? 0); [| reflexivity].
  unfold go_to, bind at 1, modify. unfold bind at 1, current_entry, bind at 1, self.
  cbn [pin_history history_index with_history_index].
  destruct (Py.index (pin_history s) (history_index s - 1)) as [e |]; [| reflexivity].
  unfold ret, bind at 1.
  destruct (returns_unit _ _ _
              (replay_spec e (with_history_index (history_index s - 1) s)))
    as [s1 [Hrun [Hh _]]].
  rewrite Hrun. cbn. now injection Hh.
Qed.

Lemma navigate_forward_history s :
  pin_history (state_of (_navigate_forward s)) = pin_history s.
Proof.
  rewrite navigate_forward_go_to.
  destruct (history_index s <? Py.len (pin_history s) - 1); [| reflexivity].
  unfold go_to, bind at 1, modify. unfold bind at 1, current_entry, bind at 1, self.
  cbn [pin_history history_index with_history_index].
  destruct (Py.index (pin_history s) (history_index s + 1)) as [e |]; [| reflexivity].
  unfold ret, bind at 1.
  destruct (returns_unit _ _ _
              (replay_spec e (with_history_index (history_index s + 1) s)))
    as [s1 [Hrun [Hh _]]].
  rewrite Hrun. cbn. now injection Hh.
Qed.

(** ** Direct interaction *)

Lemma history_of_eq s s' :
  history_of s' = history_of s ->
  pin_history s' = pin_history s /\
  history_index s' = history_index s /\
  back_button_enabled s' = back_button_enabled s /\
  forward_button_enabled s' = forward_button_enabled s.
Proof. unfold history_of. intros [= H1 H2 H3 H4]. repeat split; assumption. Qed.

Lemma visit_spec d s :
  returns (visit d) s (fun _ s' =>
    history_of s' = history_of (recorded d s) /\ same_frame s s').
Proof.
  destruct d as [p | key cname]; cbn [visit].
  - eapply returns_eq; [apply show_pin_info_run |]. split.
    + now rewrite shown_pin_history.
    + apply shown_pin_frame.
  - eapply returns_weaken; [apply show_category_pins_spec |].
    cbn. intros _ s' (Hf & Hh & _). split; assumption.
Qed.

Lemma recorded_pin_history d s :
  pin_history (recorded d s)
  = (if history_index s <? Py.len (pin_history s) - 1
     then Py.slice_to (pin_history s) (history_index s + 1)
     else pin_history s) ++ [d].
Proof. reflexivity. Qed.

Lemma recorded_history_index d s :
  history_index (recorded d s) = Py.len (pin_history (recorded d s)) - 1.
Proof. reflexivity. Qed.

Lemma recorded_buttons_ok d s : buttons_ok (recorded d s).
Proof. split; reflexivity. Qed.

Lemma recorded_history_ok d s : history_ok (recorded d s).
Proof.
  unfold history_ok. rewrite recorded_history_index, recorded_pin_history, len_app.
  change (Py.len [d]) with 1.
  pose proof (len_nonneg
    (if history_index s <? Py.len (pin_history s) - 1
     then Py.slice_to (pin_history s) (history_index s + 1)
     else pin_history s)). lia.
Qed.

(** With the index inside the history, what is kept is the prefix up to
    and including the current entry, whether or not anything follows it. *)
Lemma recorded_keeps_prefix d s :
  history_ok s ->
  pin_history (recorded d s)
  = firstn (Z.to_nat (history_index s + 1)) (pin_history s) ++ [d].
Proof.
  unfold history_ok. intros H. rewrite recorded_pin_history. f_equal.
  destruct (Z.ltb_spec (history_index s) (Py.len (pin_history s) - 1)) as [Hlt | Hge].
  - apply slice_to_firstn. lia.
  - symmetry. apply firstn_all2. unfold Py.len in *. lia.
Qed.

(** C1: recording a new view by direct interaction ([show_pin_info] or
    [show_category_pins] with [from_navigation=False]) while the index [i] is
    before the last position keeps exactly the entries up to [i], appends the
    new entry and moves the index to the new last position; and from the
    history [[a; b; c]] at index 2, going back twice and then opening [d]
    leaves the history [[a; d]] at index 1. *)
Theorem record_view_discards_forward_branch :
  (forall (s : PinoutApp) (d : view),
      -1 <= history_index s < Py.len (pin_history s) - 1 ->
      exists s',
        visit d s = Ok tt s' /\
        pin_history s'
        = firstn (Z.to_nat (history_index s + 1)) (pin_history s) ++ [d] /\
        history_index s' = Py.len (pin_history s') - 1 /\
        history_index s' = history_index s + 1) /\
  (forall (s : PinoutApp) (a b c d : view),
      let s0 := with_history_index 2 (with_pin_history [a; b; c] s) in
      exists s1 s2 s3,
        _navigate_back s0 = Ok tt s1 /\ history_index s1 = 1 /\
        _navigate_back s1 = Ok tt s2 /\ history_index s2 = 0 /\
        visit d s2 = Ok tt s3 /\
        pin_history s3 = [a; d] /\ history_index s3 = 1).
Proof.
  split.
  - intros s d Hi.
    destruct (returns_unit _ _ _ (visit_spec d s)) as [s' [Hrun [Hh _]]].
    exists s'. apply history_of_eq in Hh as (Hhist & Hind & _ & _).
    assert (Hok : history_ok s) by (unfold history_ok; lia).
    rewrite Hind, Hhist, recorded_history_index, (recorded_keeps_prefix d s Hok).
    repeat split; try assumption.
    rewrite len_app. unfold Py.len. rewrite length_firstn. cbn [length].
    unfold Py.len in Hi. lia.
  - intros s a b c d s0.
    assert (H0 : pin_history s0 = [a; b; c] /\ history_index s0 = 2)
      by (split; reflexivity).
    destruct H0 as [Hh0 Hi0].
    destruct (go_to_spec 1 s0) as (e1 & s1 & _ & Hgo1 & _ & Hh1 & Hi1 & _).
    { rewrite Hh0. unfold Py.len. cbn [length]. lia. }
    destruct (go_to_spec 0 s1) as (e2 & s2 & _ & Hgo2 & _ & Hh2 & Hi2 & _).
    { rewrite Hh1, Hh0. unfold Py.len. cbn [length]. lia. }
    destruct (returns_unit _ _ _ (visit_spec d s2)) as [s3 [Hrun [Hh3 _]]].
    exists s1, s2, s3. apply history_of_eq in Hh3 as (Hhist & Hind & _ & _).
    repeat split.
    + rewrite navigate_back_go_to, Hi0. exact Hgo1.
    + exact Hi1.
    + rewrite navigate_back_go_to, Hi1. exact Hgo2.
    + exact Hi2.
    + exact Hrun.
    + rewrite Hhist, recorded_pin_history, Hi2, Hh2, Hh1, Hh0. reflexivity.
    + rewrite Hind, recorded_history_index, recorded_pin_history, Hi2, Hh2, Hh1, Hh0.
      reflexivity.
Qed.

(** An instance of C1: the history [GPIO2, adc, GPIO5] at its first entry,
    then a click on GPIO4. *)
Lemma record_view_discards_forward_branch_witness :
  let s := with_history_index 0
             (with_pin_history
                [PinView "GPIO2"; CategoryView "adc" "ADC Pins"; PinView "GPIO5"]
                (PinoutApp_init 1500)) in
  -1 <= history_index s < Py.len (pin_history s) - 1 /\
  exists s',
    visit (PinView "GPIO4") s = Ok tt s' /\
    pin_history s'
    = firstn (Z.to_nat (history_index s + 1)) (pin_history s) ++ [PinView "GPIO4"] /\
    history_index s' = Py.len (pin_history s') - 1 /\
    history_index s' = history_index s + 1.
Proof.
  split.
  - unfold Py.len. cbn [history_index pin_history with_history_index with_pin_history length].
    lia.
  - apply (proj1 record_view_discards_forward_branch).
    unfold Py.len. cbn [history_index pin_history with_history_index with_pin_history length].
    lia.
Defined.

(** ** The navigation buttons along a session *)

Lemma history_ok_of s s' :
  history_of s' = history_of s -> history_ok s -> history_ok s'.
Proof.
  intros Hh. apply history_of_eq in Hh as (Hl & Hi & _ & _).
  unfold history_ok. now rewrite Hl, Hi.
Qed.

Lemma buttons_ok_of s s' :
  history_of s' = history_of s -> buttons_ok s -> buttons_ok s'.
Proof.
  intros Hh. apply history_of_eq in Hh as (Hl & Hi & Hb & Hf).
  unfold buttons_ok. now rewrite Hl, Hi, Hb, Hf.
Qed.

(** Every handler returns and keeps the index inside the history and the
    buttons in step with it. *)
Lemma handle_spec ev s :
  history_ok s -> buttons_ok s ->
  returns (handle ev) s (fun _ s' => history_ok s' /\ buttons_ok s').
Proof.
  intros Hok Hb. destruct ev as [p | key cname | | |]; cbn [handle].
  - eapply returns_weaken; [apply (visit_spec (PinView p)) |].
    cbn beta. intros _ s' [Hh _]. split.
    + eapply history_ok_of; [exact Hh | apply recorded_history_ok].
    + eapply buttons_ok_of; [exact Hh | apply recorded_buttons_ok].
  - eapply returns_weaken; [apply (visit_spec (CategoryView key cname)) |].
    cbn beta. intros _ s' [Hh _]. split.
    + eapply history_ok_of; [exact Hh | apply recorded_history_ok].
    + eapply buttons_ok_of; [exact Hh | apply recorded_buttons_ok].
  - unfold history_ok in Hok. unfold returns. rewrite navigate_back_go_to.
    destruct (Z.gtb_spec (history_index s) 0) as [Hpos | Hnpos].
    + destruct (go_to_spec (history_index s - 1) s)
        as (e & s' & _ & Hgo & _ & Hh & Hi & Hb' & _); [lia |].
      exists tt, s'. split; [exact Hgo |].
      split; [| exact Hb']. unfold history_ok. rewrite Hh, Hi. lia.
    + exists tt, s. split; [reflexivity | split; [exact Hok | exact Hb]].
  - unfold history_ok in Hok. unfold returns. rewrite navigate_forward_go_to.
    destruct (Z.ltb_spec (history_index s) (Py.len (pin_history s) - 1))
      as [Hlt | Hge].
    + destruct (go_to_spec (history_index s + 1) s)
        as (e & s' & _ & Hgo & _ & Hh & Hi & Hb' & _); [lia |].
      exists tt, s'. split; [exact Hgo |].
      split; [| exact Hb']. unfold history_ok. rewrite Hh, Hi. lia.
    + exists tt, s. split; [reflexivity | split; [exact Hok | exact Hb]].
  - unfold mousePressEvent. apply returns_bind, returns_self.
    destruct (highlighted_buttons s).
    + apply returns_ret. split; assumption.
    + eapply returns_eq; [apply clear_highlights_run |].
      split; [eapply history_ok_of | eapply buttons_ok_of];
        try apply cleared_history; assumption.
Qed.

Lemma run_spec evs s :
  history_ok s -> buttons_ok s ->
  returns (run evs) s (fun _ s' => history_ok s' /\ buttons_ok s').
Proof.
  intros Hok Hb.
  refine (returns_for_each handle (fun _ s' => history_ok s' /\ buttons_ok s')
            _ evs [] s (conj Hok Hb)).
  intros _ ev s1 [Hok1 Hb1]. now apply handle_spec.
Qed.

(** C3: from the empty history (index [-1]), every sequence of pin and
    category clicks interleaved with back and forward requests (and clicks
    on the window) runs without an exception, and after it (so after every
    call of the sequence) the back button is enabled exactly when the index
    is positive and the forward button exactly when the index is before the
    last position. *)
Theorem navigation_buttons_follow_history (width : Z) (evs : list event) :
  exists s,
    run evs (PinoutApp_init width) = Ok tt s /\
    back_button_enabled s = (history_index s >? 0) /\
    forward_button_enabled s = (history_index s <? Py.len (pin_history s) - 1).
Proof.
  destruct (returns_unit _ _ _ (run_spec evs (PinoutApp_init width)
              ltac:(unfold history_ok; cbn; lia) ltac:(split; reflexivity)))
    as [s [Hrun [_ Hb]]].
  exists s. split; [exact Hrun | exact Hb].
Qed.

(** ** Pins the dataset does not know *)

(** C4, as stated, fails: the claim is that [show_pin_info] raises for every
    pin id absent from the dataset, and for [GPIO20], which the table does
    not list, it returns. *)
Lemma show_pin_info_absent_pin_returns :
  ~ (forall (s : PinoutApp) (p : string) (nav : bool),
        Py.dict_get p (pins (pin_data s)) = None ->
        exists e s', show_pin_info p nav s = Raise e s').
Proof.
  intros H.
  destruct (H (PinoutApp_init 1500) "GPIO20" false eq_refl) as [e [s' Hraise]].
  rewrite show_pin_info_run in Hraise. discriminate Hraise.
Qed.

(** C4, amended: for a pin id absent from the dataset [show_pin_info]
    raises nothing; it returns with the highlight set emptied and the info
    box left as it was. *)
Theorem show_pin_info_absent_pin_keeps_panel
        (s : PinoutApp) (p : string) (nav : bool)
        (H : Py.dict_get p (pins (pin_data s)) = None) :
  exists s',
    show_pin_info p nav s = Ok tt s' /\
    info_layout s' = info_layout s /\
    highlighted_buttons s' = [] /\
    arrow_labels s' = [].
Proof.
  exists (shown_pin p nav s). split; [apply show_pin_info_run |].
  split; [| apply shown_pin_highlights].
  unfold shown_pin.
  assert (Hd : pin_data (if negb nav then recorded (PinView p) (cleared s) else cleared s)
               = pin_data s) by (destruct nav; reflexivity).
  rewrite Hd, H. destruct nav; reflexivity.
Qed.

(** An instance of the amended C4: a click on [GPIO20] in the fresh
    application. *)
Lemma show_pin_info_absent_pin_keeps_panel_witness :
  Py.dict_get "GPIO20" (pins (pin_data (PinoutApp_init 1500))) = None /\
  exists s',
    show_pin_info "GPIO20" false (PinoutApp_init 1500) = Ok tt s' /\
    info_layout s' = info_layout (PinoutApp_init 1500) /\
    highlighted_buttons s' = [] /\
    arrow_labels s' = [].
Proof.
  split.
  - reflexivity.
  - apply (show_pin_info_absent_pin_keeps_panel (PinoutApp_init 1500) "GPIO20" false).
    reflexivity.
Defined.


(** ** Categories *)

Lemma category_pins_default d b :
  category_pins d b "default"
  = filter (fun pin_id =>
              negb (Py.str_in pin_id
                      (listed_pins d ++ input_only_pins d ++ in_out_pins d))
              && String.prefix "GPIO" pin_id)
           (Py.dict_keys b).
Proof.
  unfold category_pins, listed_pins. cbn [String.eqb Ascii.eqb Bool.eqb].
  now rewrite <- !app_assoc.
Qed.

Lemma category_pins_other key d b :
  ~ In key stored_keys -> category_pins d b key = category_pins d b "default".
Proof.
  intros H. rewrite category_pins_default. unfold category_pins, listed_pins.
  repeat match goal with
  | |- context [String.eqb key ?k] =>
      destruct (String.eqb_spec key k) as [-> | _];
      [exfalso; apply H; cbn; tauto |]
  end.
  now rewrite <- !app_assoc.
Qed.

(** What the last branch selects, for any dataset and any buttons. *)
Lemma category_pins_default_In d b p :
  In p (category_pins d b "default") <->
  In p (Py.dict_keys b) /\ String.prefix "GPIO" p = true /\
  ~ In p (listed_pins d) /\ ~ In p (input_only_pins d) /\ ~ In p (in_out_pins d).
Proof.
  rewrite category_pins_default, filter_In, andb_true_iff, negb_true_iff,
    str_in_false, !in_app_iff.
  tauto.
Qed.

Lemma shipped_derived_pins_listed p :
  In p (input_only_pins shipped_data) \/ In p (in_out_pins shipped_data) ->
  In p (listed_pins shipped_data).
Proof.
  intros H. apply in_or_app in H.
  assert (Hall : forallb (fun q => Py.str_in q (listed_pins shipped_data))
                         (input_only_pins shipped_data ++ in_out_pins shipped_data)
                 = true) by (vm_compute; reflexivity).
  rewrite forallb_forall in Hall. apply str_in_In, Hall, H.
Qed.

Lemma shipped_keys_distinct :
  NoDup (Py.dict_keys (pins shipped_data)) /\ NoDup (Py.dict_keys shipped_buttons).
Proof. split; apply distinct_NoDup; vm_compute; reflexivity. Qed.

Lemma pins_of_type_spec t ps p :
  NoDup (Py.dict_keys ps) ->
  (In p (pins_of_type t ps) <->
   exists pin, Py.dict_get p ps = Some pin /\ pin_type pin = t).
Proof.
  intros Hnd. unfold pins_of_type. rewrite in_map_iff. split.
  - intros [[k pin] [Hk Hin]]. cbn in Hk. subst k.
    apply filter_In in Hin as [Hin Ht]. cbn in Ht. apply String.eqb_eq in Ht.
    exists pin. split; [now apply dict_get_NoDup | exact Ht].
  - intros [pin [Hget Ht]]. exists (p, pin). split; [reflexivity |].
    apply filter_In. split; [now apply dict_get_NoDup |].
    cbn. now apply String.eqb_eq.
Qed.

(** C5, as stated, fails: the claim is that a key outside the known set
    resolves to no pin, and the key [foo] resolves to six pins. *)
Lemma unknown_category_key_not_empty :
  ~ (forall key : string,
        ~ In key ["i2c"; "adc"; "spi"; "pwm"; "power"; "input-only";
                  "input/output"; "input_only"; "in_out"; "Input only";
                  "Input/Output"; "default"] ->
        category_pins shipped_data shipped_buttons key = []).
Proof.
  intros H. specialize (H "foo").
  assert (Hfoo : category_pins shipped_data shipped_buttons "foo"
                 = ["GPIO6"; "GPIO7"; "GPIO8"; "GPIO9"; "GPIO10"; "GPIO11"])
    by (vm_compute; reflexivity).
  rewrite Hfoo in H. discriminate H.
  cbn. intros Hin.
  repeat (destruct Hin as [Heq | Hin]; [discriminate Heq |]). exact Hin.
Qed.

(** C5, amended: for every key that is none of [i2c], [adc], [spi], [pwm],
    [power], [Input only], [Input/Output], [show_category_pins] does not
    fail and resolves the pins of the [default] key, which for the shipped
    dataset are GPIO6 to GPIO11; it highlights those that have a button. *)
Theorem unknown_category_key_is_default (key : string)
        (H : ~ In key stored_keys) :
  (forall d b, category_pins d b key = category_pins d b "default") /\
  category_pins shipped_data shipped_buttons key
  = ["GPIO6"; "GPIO7"; "GPIO8"; "GPIO9"; "GPIO10"; "GPIO11"] /\
  (forall s cname nav, exists s',
      show_category_pins key cname nav s = Ok tt s' /\
      highlighted_buttons s'
      = highlightable s (category_pins (pin_data s) (pin_buttons s) "default")).
Proof.
  split; [| split].
  - intros d b. now apply category_pins_other.
  - rewrite (category_pins_other key _ _ H). vm_compute. reflexivity.
  - intros s cname nav.
    destruct (returns_unit _ _ _ (show_category_pins_spec key cname nav s))
      as [s' [Hrun (_ & _ & Hhl & _)]].
    exists s'. split; [exact Hrun |]. cbn zeta in Hhl.
    now rewrite (category_pins_other key _ _ H) in Hhl.
Qed.

(** An instance of the amended C5: the key [foo]. *)
Lemma unknown_category_key_is_default_witness :
  ~ In "foo" stored_keys /\
  category_pins shipped_data shipped_buttons "foo"
  = ["GPIO6"; "GPIO7"; "GPIO8"; "GPIO9"; "GPIO10"; "GPIO11"].
Proof.
  assert (H : ~ In "foo" stored_keys).
  { cbn. intros Hin.
    repeat (destruct Hin as [Heq | Hin]; [discriminate Heq |]). exact Hin. }
  split; [exact H |].
  exact (proj1 (proj2 (unknown_category_key_is_default "foo" H))).
Defined.

(** C6, as stated, fails: the pins resolved for [Input only] are those of
    that type, but sorted they are not the six pins of the claim. *)
Lemma input_only_is_not_the_claimed_six :
  ~ ((forall p,
         In p (category_pins shipped_data shipped_buttons "Input only") <->
         exists pin, Py.dict_get p (pins shipped_data) = Some pin /\
                     pin_type pin = "Input only") /\
     Py.sorted (category_pins shipped_data shipped_buttons "Input only")
     = Py.sorted ["GPIO34"; "GPIO35"; "GPIO36"; "GPIO39"; "GPIO12"; "GPIO15"]).
Proof.
  intros [_ H]. vm_compute in H. discriminate H.
Qed.

(** C9, as stated, fails: the table has 38 entries, but not 30 of them are
    GPIO pins. *)
Lemma dataset_has_not_30_gpio_pins :
  ~ (length (pins shipped_data) = 38%nat /\
     length (filter (String.prefix "GPIO") (Py.dict_keys (pins shipped_data)))
     = 30%nat /\
     Permutation
       (filter (fun k => negb (String.prefix "GPIO" k))
               (Py.dict_keys (pins shipped_data)))
       ["EN"; "VIN"; "GND1"; "GND2"; "GND3"; "3V3"]).
Proof.
  intros (_ & H & _). vm_compute in H. discriminate H.
Qed.

(** C9, amended: the pin table built at startup has exactly 38 entries
    with pairwise distinct ids: 32 GPIO pins (0 to 19, 21 to 23, 25 to 27,
    32 to 36 and 39) plus EN, VIN, 3V3 and three GND pins. *)
Theorem dataset_has_38_entries :
  length (pins shipped_data) = 38%nat /\
  NoDup (Py.dict_keys (pins shipped_data)) /\
  filter (String.prefix "GPIO") (Py.dict_keys (pins shipped_data))
  = ["GPIO0"; "GPIO1"; "GPIO2"; "GPIO3"; "GPIO4"; "GPIO5"; "GPIO6"; "GPIO7";
     "GPIO8"; "GPIO9"; "GPIO10"; "GPIO11"; "GPIO12"; "GPIO13"; "GPIO14";
     "GPIO15"; "GPIO16"; "GPIO17"; "GPIO18"; "GPIO19"; "GPIO21"; "GPIO22";
     "GPIO23"; "GPIO25"; "GPIO26"; "GPIO27"; "GPIO32"; "GPIO33"; "GPIO34";
     "GPIO35"; "GPIO36"; "GPIO39"] /\
  length (filter (String.prefix "GPIO") (Py.dict_keys (pins shipped_data)))
  = 32%nat /\
  filter (fun k => negb (String.prefix "GPIO" k)) (Py.dict_keys (pins shipped_data))
  = ["EN"; "VIN"; "3V3"; "GND2"; "GND3"; "GND1"].
Proof.
  split; [reflexivity |]. split; [apply shipped_keys_distinct |].
  repeat split; vm_compute; reflexivity.
Qed.

(** ** Highlights *)

Lemma cleared_empty s :
  highlighted_buttons s = [] -> arrow_labels s = [] -> cleared s = s.
Proof.
  intros Hb Ha. unfold cleared. rewrite Hb. cbn [fold_left].
  destruct s. cbn in *. now subst.
Qed.

Lemma cleared_idempotent s : cleared (cleared s) = cleared s.
Proof. apply cleared_empty; reflexivity. Qed.

Lemma returns_conj {A : Type} (c : M A) s (Q1 Q2 : A -> PinoutApp -> Prop) :
  returns c s Q1 -> returns c s Q2 -> returns c s (fun a s' => Q1 a s' /\ Q2 a s').
Proof.
  intros [a [s' [Hc H1]]] [a2 [s2 [Hc2 H2]]].
  rewrite Hc in Hc2. injection Hc2 as <- <-.
  exists a, s'. repeat split; assumption.
Qed.

(** ** Button styles *)

Lemma restore_style_idempotent b : restore_style (restore_style b) = restore_style b.
Proof. unfold restore_style. destruct b as [? ? ? ? ? ? [st |]]; reflexivity. Qed.

Lemma fold_restore_get (k : string) (l : list string) buttons :
  Py.dict_get k (fold_left (fun bs btn => Py.dict_modify btn restore_style bs) l buttons)
  = if Py.str_in k l then option_map restore_style (Py.dict_get k buttons)
    else Py.dict_get k buttons.
Proof.
  revert buttons. induction l as [| a l IH]; intros buttons; cbn [fold_left].
  - reflexivity.
  - rewrite IH, dict_get_modify. unfold Py.str_in. cbn [existsb].
    fold (Py.str_in k l).
    destruct (String.eqb k a), (Py.str_in k l), (Py.dict_get k buttons) as [b |];
      cbn; try reflexivity.
    now rewrite restore_style_idempotent.
Qed.

Lemma restore_style_ok hl b :
  button_ok hl b = true -> button_ok false (restore_style b) = true.
Proof.
  unfold button_ok, restore_style.
  destruct b as [? ? ? ? ? st [st0 |]]; cbn.
  - rewrite andb_true_iff. intros [_ H]. now rewrite H.
  - rewrite andb_true_iff. intros [_ H]. now rewrite H.
Qed.

Lemma button_ok_mono hl hl' b :
  (hl = true -> hl' = true) -> button_ok hl b = true -> button_ok hl' b = true.
Proof.
  unfold button_ok. intros Himp. rewrite !andb_true_iff, !orb_true_iff.
  intros [[H | H] H']; auto.
Qed.

Lemma style_ok_same s s' :
  pin_buttons s' = pin_buttons s ->
  highlighted_buttons s' = highlighted_buttons s ->
  style_ok s -> style_ok s'.
Proof. unfold style_ok. intros -> ->. auto. Qed.

Lemma cleared_style_ok s : style_ok s -> style_ok (cleared s).
Proof.
  intros Hok k b' Hget. cbn in Hget. rewrite fold_restore_get in Hget.
  change (highlighted_buttons (cleared s)) with (@nil string).
  change (Py.str_in k []) with false.
  destruct (Py.dict_get k (pin_buttons s)) as [b |] eqn:Hb.
  - specialize (Hok k b Hb).
    destruct (Py.str_in k (highlighted_buttons s)) eqn:Hin; cbn in Hget.
    + injection Hget as <-. eapply restore_style_ok, Hok.
    + injection Hget as <-. exact Hok.
  - destruct (Py.str_in k (highlighted_buttons s)); discriminate Hget.
Qed.

Lemma str_in_app x l1 l2 : Py.str_in x (l1 ++ l2) = Py.str_in x l1 || Py.str_in x l2.
Proof. apply existsb_app. Qed.

(** A button about to be highlighted may already be so (a pin listed twice
    in a category): its remembered style is the base one all the same. *)
Lemma rehighlighted_style_ok hc hl b :
  button_ok hl b = true ->
  button_ok true
    (setStyleSheet (HighlightStyle hc)
       (match original_style b with
        | None => set_original_style (styleSheet b) b
        | Some _ => b
        end)) = true.
Proof.
  unfold button_ok. destruct b as [? ? ? ? ? st [st0 |]]; cbn;
    rewrite ?andb_true_iff; tauto.
Qed.

Lemma highlight_body_style p s :
  style_ok s ->
  returns
    (s0 <- self ;;
     match Py.dict_get p (pin_buttons s0) with
     | Some _ =>
         _highlight_button p ;;
         modify (fun s => with_highlighted_buttons (highlighted_buttons s ++ [p]) s)
     | None => ret tt
     end) s
    (fun _ s' => style_ok s').
Proof.
  intros Hok. apply returns_bind, returns_self.
  destruct (Py.dict_get p (pin_buttons s)) as [b |] eqn:Hget.
  - apply returns_bind. unfold _highlight_button.
    apply returns_bind, returns_self. rewrite Hget.
    apply returns_bind, returns_modify, returns_modify, returns_modify.
    intros k b' Hget'.
    cbn [pin_buttons highlighted_buttons with_highlighted_buttons
         with_arrow_labels with_pin_buttons] in *.
    rewrite dict_get_modify in Hget'. rewrite str_in_app.
    destruct (String.eqb_spec k p) as [-> | Hne].
    + rewrite Hget in Hget'. cbn in Hget'. injection Hget' as <-.
      unfold Py.str_in at 2. cbn [existsb]. rewrite String.eqb_refl, orb_true_r.
      eapply rehighlighted_style_ok, (Hok p b Hget).
    + eapply button_ok_mono; [| apply (Hok k b' Hget')].
      intros ->. reflexivity.
  - apply returns_ret. exact Hok.
Qed.

Lemma show_category_pins_style key cname nav s :
  style_ok s ->
  returns (show_category_pins key cname nav) s (fun _ s' => style_ok s').
Proof.
  intros Hok. unfold show_category_pins.
  apply returns_bind. eapply returns_eq; [apply clear_highlights_run |].
  apply cleared_style_ok in Hok.
  apply returns_bind.
  apply (returns_eq _ _ tt
           (if negb nav then recorded (CategoryView key cname) (cleared s)
            else cleared s)).
  { destruct nav; cbn [negb]; [reflexivity | apply record_view_run]. }
  assert (Hok1 : style_ok (if negb nav
                           then recorded (CategoryView key cname) (cleared s)
                           else cleared s)).
  { destruct nav; cbn [negb]; [exact Hok |].
    eapply style_ok_same; [| | exact Hok]; reflexivity. }
  apply returns_bind, returns_self. cbn zeta.
  apply returns_bind.
  eapply returns_weaken.
  - refine (returns_for_each _ (fun _ s' => style_ok s') _ _ [] _ Hok1).
    intros _ p s1 H1. apply highlight_body_style, H1.
  - cbn beta. intros _ s2 H2.
    eapply returns_eq; [apply display_category_info_run |].
    eapply style_ok_same; [| | exact H2]; reflexivity.
Qed.

Lemma shown_pin_style p nav s : style_ok s -> style_ok (shown_pin p nav s).
Proof.
  intros Hok. apply cleared_style_ok in Hok. unfold shown_pin.
  destruct nav; cbn [negb]; destruct (Py.dict_get p _);
    (eapply style_ok_same; [| | exact Hok]; reflexivity).
Qed.

Lemma replay_style e s :
  style_ok s -> returns (replay e) s (fun _ s' => style_ok s').
Proof.
  intros Hok. destruct e as [p | key cname]; cbn [replay].
  - eapply returns_eq; [apply show_pin_info_run | now apply shown_pin_style].
  - now apply show_category_pins_style.
Qed.

Lemma go_to_style (i : Z) s :
  0 <= i < Py.len (pin_history s) ->
  style_ok s -> returns (go_to i) s (fun _ s' => style_ok s').
Proof.
  intros Hi Hok. unfold go_to. apply returns_bind, returns_modify.
  destruct (index_in_range (pin_history s) i Hi) as [e [Hidx _]].
  apply returns_bind. apply (returns_eq _ _ e (with_history_index i s)).
  { unfold current_entry, bind, self.
    cbn [pin_history history_index with_history_index]. now rewrite Hidx. }
  apply returns_bind. eapply returns_weaken.
  - apply replay_style. eapply style_ok_same; [| | exact Hok]; reflexivity.
  - cbn beta. intros _ s1 H1. apply returns_modify.
    eapply style_ok_same; [| | exact H1]; reflexivity.
Qed.

Lemma handle_style ev s :
  history_ok s -> style_ok s ->
  returns (handle ev) s (fun _ s' => style_ok s').
Proof.
  intros Hh Hok. unfold history_ok in Hh.
  destruct ev as [p | key cname | | |]; cbn [handle].
  - eapply returns_eq; [apply show_pin_info_run | now apply shown_pin_style].
  - now apply show_category_pins_style.
  - unfold returns. rewrite navigate_back_go_to.
    destruct (Z.gtb_spec (history_index s) 0) as [Hpos | Hnpos].
    + apply go_to_style; [lia | exact Hok].
    + exists tt, s. split; [reflexivity | exact Hok].
  - unfold returns. rewrite navigate_forward_go_to.
    destruct (Z.ltb_spec (history_index s) (Py.len (pin_history s) - 1))
      as [Hlt | Hge].
    + apply go_to_style; [lia | exact Hok].
    + exists tt, s. split; [reflexivity | exact Hok].
  - unfold mousePressEvent. apply returns_bind, returns_self.
    destruct (highlighted_buttons s).
    + apply returns_ret. exact Hok.
    + eapply returns_eq; [apply clear_highlights_run | now apply cleared_style_ok].
Qed.

Lemma init_style_ok width : style_ok (PinoutApp_init width).
Proof.
  intros k b Hget.
  change (pin_buttons (PinoutApp_init width)) with shipped_buttons in Hget.
  assert (Hall : forallb (fun kv => button_ok false (snd kv)) shipped_buttons = true)
    by (vm_compute; reflexivity).
  rewrite forallb_forall in Hall.
  apply (Hall (k, b)). apply dict_get_NoDup; [apply shipped_keys_distinct | exact Hget].
Qed.

Lemma run_style evs s :
  history_ok s -> buttons_ok s -> style_ok s ->
  returns (run evs) s (fun _ s' => style_ok s').
Proof.
  intros Hh Hb Hok.
  eapply returns_weaken.
  - refine (returns_for_each handle
              (fun _ s' => (history_ok s' /\ buttons_ok s') /\ style_ok s')
              _ evs [] s (conj (conj Hh Hb) Hok)).
    intros _ ev s1 [[Hh1 Hb1] Hok1].
    apply returns_conj; [now apply handle_spec | now apply handle_style].
  - cbn beta. intros _ s' [_ H]. exact H.
Qed.

(** C8: [show_pin_info] and [show_category_pins] both start by emptying
    the highlight set, so what they leave depends on the new view alone:
    nothing after a pin view, and after a category view the buttons and
    arrows of the pins resolved for its key, whatever was highlighted
    before.  [_clear_highlights] always returns with both lists empty and
    is idempotent, and after [show_pin_info('GPIO0')] it finds nothing to
    clear and leaves the highlight set empty.  Along every session the
    only buttons that carry the highlight style are those of the current
    highlight list. *)
Theorem views_replace_highlights (s : PinoutApp) :
  (forall p nav, exists s',
      show_pin_info p nav s = Ok tt s' /\
      (_clear_highlights ;; show_pin_info p nav) s = Ok tt s' /\
      highlighted_buttons s' = [] /\ arrow_labels s' = []) /\
  (forall key cname nav, exists s',
      show_category_pins key cname nav s = Ok tt s' /\
      (_clear_highlights ;; show_category_pins key cname nav) s = Ok tt s' /\
      let pins_ := category_pins (pin_data s) (pin_buttons s) key in
      highlighted_buttons s' = highlightable s pins_ /\
      arrow_labels s' = flat_map (arrow_of s) pins_) /\
  (exists s1,
      _clear_highlights s = Ok tt s1 /\
      highlighted_buttons s1 = [] /\ arrow_labels s1 = [] /\
      _clear_highlights s1 = Ok tt s1) /\
  (exists s1,
      show_pin_info "GPIO0" false s = Ok tt s1 /\
      _clear_highlights s1 = Ok tt s1 /\
      highlighted_buttons s1 = [] /\ arrow_labels s1 = []) /\
  (forall width evs, exists s',
      run evs (PinoutApp_init width) = Ok tt s' /\
      forall k b hc,
        Py.dict_get k (pin_buttons s') = Some b ->
        styleSheet b = HighlightStyle hc ->
        In k (highlighted_buttons s')).
Proof.
  split; [| split; [| split; [| split]]].
  - intros p nav. exists (shown_pin p nav s).
    split; [apply show_pin_info_run |]. split; [| apply shown_pin_highlights].
    unfold bind. rewrite clear_highlights_run, show_pin_info_run.
    unfold shown_pin. now rewrite cleared_idempotent.
  - intros key cname nav.
    destruct (returns_unit _ _ _ (show_category_pins_spec key cname nav s))
      as [s' [Hrun (_ & _ & Hb & Ha & _)]].
    exists s'. split; [exact Hrun |]. split; [| split; assumption].
    unfold bind at 1. rewrite clear_highlights_run.
    unfold show_category_pins in *. unfold bind at 1.
    unfold bind at 1 in Hrun.
    rewrite clear_highlights_run in *. now rewrite cleared_idempotent.
  - exists (cleared s). split; [apply clear_highlights_run |].
    split; [reflexivity |]. split; [reflexivity |].
    rewrite clear_highlights_run. now rewrite cleared_idempotent.
  - exists (shown_pin "GPIO0" false s).
    destruct (shown_pin_highlights "GPIO0" false s) as [Hb Ha].
    split; [apply show_pin_info_run |].
    split; [| split; assumption].
    rewrite clear_highlights_run. now rewrite cleared_empty.
  - intros width evs.
    destruct (returns_unit _ _ _ (run_style evs (PinoutApp_init width)
                ltac:(unfold history_ok; cbn; lia) ltac:(split; reflexivity)
                (init_style_ok width)))
      as [s' [Hrun Hok]].
    exists s'. split; [exact Hrun |]. intros k b hc Hget Hst.
    specialize (Hok k b Hget). unfold button_ok in Hok.
    rewrite Hst in Hok. cbn in Hok.
    apply andb_true_iff in Hok as [Hin _]. now apply str_in_In.
Qed.

(** An instance of C8: after a click on the I2C legend entry in the fresh
    application the button of GPIO21 carries the highlight style, and it is
    in the highlight list. *)
Lemma views_replace_highlights_witness :
  exists s b,
    run [CategoryClicked "i2c" "I2C Pins"] (PinoutApp_init 1500) = Ok tt s /\
    Py.dict_get "GPIO21" (pin_buttons s) = Some b /\
    styleSheet b = HighlightStyle "rgba(0, 128, 255, 80)" /\
    In "GPIO21" (highlighted_buttons s).
Proof.
  destruct (proj2 (proj2 (proj2 (proj2
              (views_replace_highlights (PinoutApp_init 1500)))))
              1500 [CategoryClicked "i2c" "I2C Pins"])
    as [s [Hrun Hstyle]].
  assert (H : exists b, Py.dict_get "GPIO21" (pin_buttons s) = Some b /\
                        styleSheet b = HighlightStyle "rgba(0, 128, 255, 80)").
  { assert (Hs : Ok tt s = run [CategoryClicked "i2c" "I2C Pins"] (PinoutApp_init 1500))
      by (symmetry; exact Hrun).
    vm_compute in Hs. injection Hs as ->.
    eexists. split; [vm_compute; reflexivity | reflexivity]. }
  destruct H as [b [Hget Hst]].
  exists s, b. split; [exact Hrun |]. split; [exact Hget |]. split; [exact Hst |].
  exact (Hstyle "GPIO21" b _ Hget Hst).
Defined.

(** ** A session from start to end *)

(** GPIO2, then the ADC category, back, then GPIO5: the history ends as
    [GPIO2, GPIO5] with the back button enabled and the forward one not. *)
Example session_back_then_new_view :
  exists s,
    run [PinClicked "GPIO2"; CategoryClicked "adc" "ADC Pins"; BackRequested;
         PinClicked "GPIO5"] (PinoutApp_init 1500) = Ok tt s /\
    pin_history s = [PinView "GPIO2"; PinView "GPIO5"] /\
    history_index s = 1 /\
    back_button_enabled s = true /\
    forward_button_enabled s = false /\
    highlighted_buttons s = [].
Proof.
  eexists. split; [vm_compute; reflexivity |]. repeat split.
Qed.

(** After going back from GPIO2 and the ADC category, the forward button is
    enabled and the thirteen ADC pins are no longer highlighted. *)
Example session_back_enables_forward :
  exists s,
    run [PinClicked "GPIO2"; CategoryClicked "adc" "ADC Pins"; BackRequested]
        (PinoutApp_init 1500) = Ok tt s /\
    history_index s = 0 /\
    Py.len (pin_history s) = 2 /\
    back_button_enabled s = false /\
    forward_button_enabled s = true /\
    highlighted_buttons s = [] /\ arrow_labels s = [].
Proof.
  eexists. split; [vm_compute; reflexivity |]. repeat split.
Qed.

(** * Further properties *)

(** ** [get_pin_category] and the hover colours *)

(** X1: [get_pin_category] tests the five lists in the order i2c, adc, spi,
    pwm, power and the first list that has the pin decides; [default] is
    returned exactly for the pins in none of them, and nothing but these
    six names is ever returned. *)
Theorem get_pin_category_first_match (d : ESP32PinData) (p : string) :
  (get_pin_category d p = "i2c" <-> In p (i2c_pins d)) /\
  (get_pin_category d p = "adc" <-> ~ In p (i2c_pins d) /\ In p (adc_pins d)) /\
  (get_pin_category d p = "spi" <->
   ~ In p (i2c_pins d) /\ ~ In p (adc_pins d) /\ In p (spi_pins d)) /\
  (get_pin_category d p = "pwm" <->
   ~ In p (i2c_pins d) /\ ~ In p (adc_pins d) /\ ~ In p (spi_pins d) /\
   In p (pwm_pins d)) /\
  (get_pin_category d p = "power" <->
   ~ In p (i2c_pins d) /\ ~ In p (adc_pins d) /\ ~ In p (spi_pins d) /\
   ~ In p (pwm_pins d) /\ In p (power_pins d)) /\
  (get_pin_category d p = "default" <-> ~ In p (listed_pins d)) /\
  In (get_pin_category d p) category_names.
Proof.
  unfold get_pin_category, listed_pins, category_names.
  rewrite !in_app_iff, <- !str_in_In.
  destruct (Py.str_in p (i2c_pins d)), (Py.str_in p (adc_pins d)),
    (Py.str_in p (spi_pins d)), (Py.str_in p (pwm_pins d)),
    (Py.str_in p (power_pins d));
    cbn; repeat split; intros; try discriminate; try tauto;
    repeat match goal with
           | H : _ /\ _ |- _ => destruct H
           | H : ~ (true = true) |- _ => exfalso; apply H; reflexivity
           | H : false = true |- _ => discriminate H
           end;
    try (intros Hor; repeat (destruct Hor as [Hor | Hor]; try discriminate Hor)).
Qed.

Lemma get_pin_category_names d p : In (get_pin_category d p) category_names.
Proof.
  unfold get_pin_category, category_names.
  destruct (Py.str_in p (i2c_pins d)), (Py.str_in p (adc_pins d)),
    (Py.str_in p (spi_pins d)), (Py.str_in p (pwm_pins d)),
    (Py.str_in p (power_pins d)); cbn; tauto.
Qed.

Lemma get_pin_category_default d p :
  get_pin_category d p = "default" <-> ~ In p (listed_pins d).
Proof.
  unfold get_pin_category, listed_pins.
  rewrite !in_app_iff, <- !str_in_In.
  destruct (Py.str_in p (i2c_pins d)), (Py.str_in p (adc_pins d)),
    (Py.str_in p (spi_pins d)), (Py.str_in p (pwm_pins d)),
    (Py.str_in p (power_pins d));
    cbn; split; intros H; try discriminate H; try reflexivity;
    try (exfalso; apply H; tauto);
    intros Hor; repeat (destruct Hor as [Hor | Hor]; try discriminate Hor).
Qed.

(** X2: whatever the dataset and the pin, the category of the pin is a key
    of [HOVER_COLORS], so the fallback of [HOVER_COLORS.get] is never taken
    for a pin; the colours stored under [input_only] and [in_out] are never
    given to a button; and a button gets the red of [default] exactly when
    its pin is in none of the five lists. *)
Theorem hover_color_of_pin_category (d : ESP32PinData) (p : string) :
  Py.dict_get (get_pin_category d p) HOVER_COLORS
  = Some (hover_color_of (get_pin_category d p)) /\
  hover_color_of (get_pin_category d p) <> "rgba(247, 0, 255, 80)" /\
  hover_color_of (get_pin_category d p) <> "rgba(0, 195, 255, 80)" /\
  (hover_color_of (get_pin_category d p) = "rgba(255, 0, 0, 80)" <->
   ~ In p (listed_pins d)).
Proof.
  rewrite <- get_pin_category_default.
  pose proof (get_pin_category_names d p) as Hin. unfold category_names in Hin.
  cbn [In] in Hin.
  repeat (destruct Hin as [<- | Hin]);
    [ .. | destruct Hin ];
    (split; [reflexivity |]); (split; [discriminate |]);
    (split; [discriminate |]); split; intros H;
    first [discriminate H | reflexivity].
Qed.

(** ** [_create_pin_buttons] and the layout *)

Lemma dict_get_map_values {V W : Type} (f : string -> V -> W) (k : string)
      (l : list (string * V)) :
  Py.dict_get k (map (fun kv => (fst kv, f (fst kv) (snd kv))) l)
  = option_map (f k) (Py.dict_get k l).
Proof.
  induction l as [| [k' v] l IH]; cbn.
  - reflexivity.
  - destruct (String.eqb_spec k k') as [-> | _]; [reflexivity | exact IH].
Qed.

Lemma create_pin_buttons_get d k :
  Py.dict_get k (_create_pin_buttons d)
  = option_map
      (fun '(x, y, w, h) => PinButton_init k x y w h (get_pin_category d k))
      (Py.dict_get k _get_pin_positions).
Proof.
  unfold _create_pin_buttons.
  rewrite <- (dict_get_map_values
                (fun id '(x, y, w, h) =>
                   PinButton_init id x y w h (get_pin_category d id))).
  f_equal; try (apply map_ext; intros [id [[[x y] w] h]]; reflexivity).
Qed.

Lemma positions_size k x y w h :
  Py.dict_get k _get_pin_positions = Some (x, y, w, h) ->
  w = LayoutConfig.PIN_BUTTON_WIDTH /\ h = LayoutConfig.PIN_BUTTON_HEIGHT /\
  (x = 600 \/ x = 865) /\ 167 <= y <= 660.
Proof.
  intros Hget.
  assert (Hall : forallb
                   (fun kv => let '(x, y, w, h) := snd kv in
                              (w =? 36) && (h =? 20)
                              && ((x =? 600) || (x =? 865))
                              && (167 <=? y) && (y <=? 660))
                   _get_pin_positions = true) by (vm_compute; reflexivity).
  rewrite forallb_forall in Hall.
  assert (Hin : In (k, (x, y, w, h)) _get_pin_positions).
  { apply dict_get_NoDup; [| exact Hget].
    apply distinct_NoDup. vm_compute. reflexivity. }
  specialize (Hall _ Hin). cbn in Hall.
  repeat rewrite andb_true_iff in Hall. rewrite orb_true_iff in Hall.
  destruct Hall as [[[[Hw Hh] Hx] Hy1] Hy2].
  unfold LayoutConfig.PIN_BUTTON_WIDTH, LayoutConfig.PIN_BUTTON_HEIGHT. lia.
Qed.

(** X3: for any dataset, [_create_pin_buttons] makes one button per entry
    of the position table, and the button found under a pin id is the
    button of that pin: it carries the id, the place and the 36 by 20 size
    of the table, the transparent style with the hover colour of the pin's
    category, and no remembered style. *)
Theorem create_pin_buttons_lookup (d : ESP32PinData) (k : string) (b : PinButton)
        (H : Py.dict_get k (_create_pin_buttons d) = Some b) :
  Py.dict_keys (_create_pin_buttons d) = Py.dict_keys _get_pin_positions /\
  Py.dict_get k _get_pin_positions
  = Some (btn_x b, btn_y b, btn_width b, btn_height b) /\
  pin_id b = k /\
  btn_width b = 36 /\ btn_height b = 20 /\
  styleSheet b = BaseStyle (hover_color_of (get_pin_category d k)) /\
  original_style b = None.
Proof.
  split.
  { unfold _create_pin_buttons, Py.dict_keys. rewrite map_map.
    apply map_ext. intros [id [[[x y] w] h]]. reflexivity. }
  rewrite create_pin_buttons_get in H.
  destruct (Py.dict_get k _get_pin_positions) as [[[[x y] w] h] |] eqn:Hpos;
    [| discriminate H].
  cbn in H. injection H as <-. cbn.
  destruct (positions_size _ _ _ _ _ Hpos) as (-> & -> & _).
  repeat split.
Qed.

(** An instance of X3: the button of GPIO21 in the shipped application. *)
Lemma create_pin_buttons_lookup_witness :
  exists b,
    Py.dict_get "GPIO21" (_create_pin_buttons shipped_data) = Some b /\
    pin_id b = "GPIO21" /\
    styleSheet b = BaseStyle "rgba(0, 128, 255, 80)".
Proof.
  assert (H : exists b, Py.dict_get "GPIO21" (_create_pin_buttons shipped_data) = Some b)
    by (eexists; vm_compute; reflexivity).
  destruct H as [b H]. exists b. split; [exact H |].
  destruct (create_pin_buttons_lookup shipped_data "GPIO21" b H)
    as (_ & _ & Hid & _ & _ & Hst & _).
  split; [exact Hid | exact Hst].
Defined.

Lemma created_button_position d k b :
  Py.dict_get k (_create_pin_buttons d) = Some b ->
  In (k, (btn_x b, btn_y b, btn_width b, btn_height b)) _get_pin_positions.
Proof.
  intros H. rewrite create_pin_buttons_get in H.
  destruct (Py.dict_get k _get_pin_positions) as [[[[x y] w] h] |] eqn:Hpos;
    [| discriminate H].
  cbn [option_map] in H. injection H as <-.
  cbn [btn_x btn_y btn_width btn_height PinButton_init].
  apply dict_get_NoDup; [| exact Hpos].
  apply distinct_NoDup. vm_compute. reflexivity.
Qed.

(** X4: the pin buttons never share a pixel and all lie inside the window,
    between the top and the bottom of the diagram: two buttons made by
    [_create_pin_buttons] for different pins do not overlap, so a click
    reaches at most one of them. *)
Theorem pin_buttons_do_not_overlap (d : ESP32PinData) (k1 k2 : string)
        (b1 b2 : PinButton)
        (H1 : Py.dict_get k1 (_create_pin_buttons d) = Some b1)
        (H2 : Py.dict_get k2 (_create_pin_buttons d) = Some b2) :
  (k1 = k2 \/ overlap b1 b2 = false) /\
  0 <= btn_x b1 /\ btn_x b1 + btn_width b1 <= LayoutConfig.WINDOW_WIDTH /\
  (let '(_, _, top_y, bottom_y) := LayoutConfig.get_image_position in
   top_y <= btn_y b1 /\ btn_y b1 + btn_height b1 <= bottom_y /\
   0 <= top_y /\ bottom_y <= LayoutConfig.WINDOW_HEIGHT).
Proof.
  apply created_button_position in H1, H2.
  assert (Hall : forallb
            (fun kv1 =>
               let '(x1, y1, w1, h1) := snd kv1 in
               (0 <=? x1) && (x1 + w1 <=? 1500) && (94 <=? y1) && (y1 + h1 <=? 705)
               && forallb
                    (fun kv2 =>
                       let '(x2, y2, w2, h2) := snd kv2 in
                       String.eqb (fst kv1) (fst kv2)
                       || negb ((x1 <? x2 + w2) && (x2 <? x1 + w1)
                                && (y1 <? y2 + h2) && (y2 <? y1 + h1)))
                    _get_pin_positions)
            _get_pin_positions = true) by (vm_compute; reflexivity).
  rewrite forallb_forall in Hall. specialize (Hall _ H1). cbn [fst snd] in Hall.
  repeat rewrite andb_true_iff in Hall.
  destruct Hall as [[[[Hx0 Hx1] Hy0] Hy1] Hpairs].
  rewrite forallb_forall in Hpairs. specialize (Hpairs _ H2).
  cbn [fst snd] in Hpairs.
  split.
  - apply orb_true_iff in Hpairs as [Heq | Hno].
    + left. now apply String.eqb_eq.
    + right. apply negb_true_iff in Hno. exact Hno.
  - change LayoutConfig.get_image_position with (600, 900, 94, 705).
    unfold LayoutConfig.WINDOW_WIDTH, LayoutConfig.WINDOW_HEIGHT.
    cbn beta iota. lia.
Qed.

(** An instance of X4: the buttons of GPIO34 and EN, neighbours in the
    left column. *)
Lemma pin_buttons_do_not_overlap_witness :
  exists b1 b2,
    Py.dict_get "GPIO34" (_create_pin_buttons shipped_data) = Some b1 /\
    Py.dict_get "EN" (_create_pin_buttons shipped_data) = Some b2 /\
    ("GPIO34" = "EN" \/ overlap b1 b2 = false).
Proof.
  assert (H1 : exists b, Py.dict_get "GPIO34" (_create_pin_buttons shipped_data) = Some b)
    by (eexists; vm_compute; reflexivity).
  assert (H2 : exists b, Py.dict_get "EN" (_create_pin_buttons shipped_data) = Some b)
    by (eexists; vm_compute; reflexivity).
  destruct H1 as [b1 H1], H2 as [b2 H2]. exists b1, b2.
  split; [exact H1 |]. split; [exact H2 |].
  exact (proj1 (pin_buttons_do_not_overlap shipped_data "GPIO34" "EN" b1 b2 H1 H2)).
Defined.

(** X5: the arrow of a highlighted button.  The buttons stand in two
    columns, at x = 600 and x = 865.  For a button of the left column the
    arrow is [►], left of the button, whenever the content widget has at
    least its minimum width of 1500; for a button of the right column the
    arrow is [◄], right of the button, only as long as the content widget
    is at most 1730 wide: in a wider window it becomes [►] and moves to the
    left of the button, over the diagram. *)
Theorem arrow_side_depends_on_width (d : ESP32PinData) (k : string)
        (b : PinButton) (width : Z) (hc : string)
        (H : Py.dict_get k (_create_pin_buttons d) = Some b) :
  (btn_x b = 600 \/ btn_x b = 865) /\
  (btn_x b = 600 -> LayoutConfig.WINDOW_WIDTH <= width ->
   arrow_text (arrow_for width hc b) = "►" /\
   arrow_x (arrow_for width hc b) = 577) /\
  (btn_x b = 865 -> width <= 1730 ->
   arrow_text (arrow_for width hc b) = "◄" /\
   arrow_x (arrow_for width hc b) = 906) /\
  (btn_x b = 865 -> 1730 < width ->
   arrow_text (arrow_for width hc b) = "►" /\
   arrow_x (arrow_for width hc b) = 842).
Proof.
  apply created_button_position in H.
  assert (Hget : Py.dict_get k _get_pin_positions
                 = Some (btn_x b, btn_y b, btn_width b, btn_height b)).
  { apply dict_get_NoDup; [| exact H]. apply distinct_NoDup. vm_compute. reflexivity. }
  destruct (positions_size _ _ _ _ _ Hget) as (Hw & _ & Hx & _).
  unfold LayoutConfig.PIN_BUTTON_WIDTH in Hw.
  split; [exact Hx |]. unfold LayoutConfig.WINDOW_WIDTH.
  split; [| split]; intros Hcol Hwidth; unfold arrow_for;
    cbn [arrow_text arrow_x]; rewrite Hcol, Hw;
    change (Py.int_div 36 2) with 18.
  - destruct (Z.ltb_spec (2 * 600) width); [split; reflexivity | lia].
  - destruct (Z.ltb_spec (2 * 865) width); [lia | split; reflexivity].
  - destruct (Z.ltb_spec (2 * 865) width); [split; reflexivity | lia].
Qed.

(** An instance of X5: the button of GPIO21, in the right column, in a
    window 1920 wide. *)
Lemma arrow_side_depends_on_width_witness :
  exists b,
    Py.dict_get "GPIO21" (_create_pin_buttons shipped_data) = Some b /\
    btn_x b = 865 /\ 1730 < 1920 /\
    arrow_text (arrow_for 1920 "rgba(0, 128, 255, 80)" b) = "►".
Proof.
  assert (H : exists b, Py.dict_get "GPIO21" (_create_pin_buttons shipped_data) = Some b
                        /\ btn_x b = 865)
    by (eexists; split; vm_compute; reflexivity).
  destruct H as [b [H Hx]]. exists b.
  split; [exact H |]. split; [exact Hx |].
  assert (Hw : 1730 < 1920) by lia. split; [exact Hw |].
  exact (proj1 (proj2 (proj2 (proj2
           (arrow_side_depends_on_width shipped_data "GPIO21" b 1920
              "rgba(0, 128, 255, 80)" H))) Hx Hw)).
Defined.

(** ** The history after a direct view, and back and forth *)

Lemma index_nonneg {A : Type} (l : list A) (i : Z) :
  0 <= i < Py.len l -> Py.index l i = nth_error l (Z.to_nat i).
Proof.
  intros Hi. unfold Py.index.
  destruct (Z.leb_spec 0 i); [| lia].
  destruct (Z.ltb_spec i (Py.len l)); [reflexivity | lia].
Qed.

(** X6: a direct view opened with the index inside the history (also at
    its end, also in the empty history) leaves the entries up to the old
    index as they were, puts the new entry right after them as the last and
    current one, so that the history has [index + 2] entries; the forward
    button is off, the back button is on unless the history was empty, and
    a forward request then does nothing. *)
Theorem visit_extends_history (s : PinoutApp) (d : view) (H : history_ok s) :
  exists s',
    visit d s = Ok tt s' /\
    Py.len (pin_history s') = history_index s + 2 /\
    history_index s' = history_index s + 1 /\
    Py.index (pin_history s') (history_index s') = Some d /\
    (forall i, 0 <= i <= history_index s ->
               Py.index (pin_history s') i = Py.index (pin_history s) i) /\
    forward_button_enabled s' = false /\
    back_button_enabled s' = (0 <=? history_index s) /\
    _navigate_forward s' = Ok tt s'.
Proof.
  destruct (returns_unit _ _ _ (visit_spec d s)) as [s' [Hrun [Hh _]]].
  exists s'. apply history_of_eq in Hh as (Hhist & Hind & Hback & Hfwd).
  rewrite (recorded_keeps_prefix d s H) in Hhist.
  unfold history_ok in H.
  set (n := Z.to_nat (history_index s + 1)) in *.
  assert (Hn : length (firstn n (pin_history s)) = n).
  { rewrite length_firstn. unfold Py.len in H. lia. }
  assert (Hlen : Py.len (pin_history s') = history_index s + 2).
  { rewrite Hhist, len_app. unfold Py.len. rewrite Hn. cbn [length]. lia. }
  assert (Hidx : history_index s' = history_index s + 1).
  { rewrite Hind, recorded_history_index, (recorded_keeps_prefix d s H), len_app.
    unfold Py.len. fold n. rewrite Hn. cbn [length]. lia. }
  split; [exact Hrun |]. split; [exact Hlen |]. split; [exact Hidx |].
  split; [| split; [| split; [| split]]].
  - rewrite index_nonneg by lia. rewrite Hhist, Hidx.
    rewrite nth_error_app2 by (rewrite Hn; lia).
    rewrite Hn. fold n. now rewrite Nat.sub_diag.
  - intros i Hi. rewrite !index_nonneg by lia.
    rewrite Hhist, nth_error_app1 by (rewrite Hn; lia).
    rewrite nth_error_firstn.
    destruct (Nat.ltb_spec (Z.to_nat i) n); [reflexivity | lia].
  - rewrite Hfwd. cbn. apply Z.ltb_irrefl.
  - rewrite Hback.
    change (back_button_enabled (recorded d s))
      with (history_index (recorded d s) >? 0).
    rewrite <- Hind, Hidx.
    destruct (Z.gtb_spec (history_index s + 1) 0), (Z.leb_spec 0 (history_index s));
      lia || reflexivity.
  - rewrite navigate_forward_go_to.
    destruct (Z.ltb_spec (history_index s') (Py.len (pin_history s') - 1));
      [lia | reflexivity].
Qed.

(** An instance of X6: a click on GPIO4 in the fresh application. *)
Lemma visit_extends_history_witness :
  history_ok (PinoutApp_init 1500) /\
  exists s',
    visit (PinView "GPIO4") (PinoutApp_init 1500) = Ok tt s' /\
    Py.len (pin_history s') = 1 /\
    history_index s' = 0.
Proof.
  assert (H : history_ok (PinoutApp_init 1500)) by (unfold history_ok; cbn; lia).
  split; [exact H |].
  destruct (visit_extends_history (PinoutApp_init 1500) (PinView "GPIO4") H)
    as (s' & Hrun & Hlen & Hidx & _).
  exists s'. split; [exact Hrun |]. split; [exact Hlen | exact Hidx].
Defined.

(** X7: back and forward undo each other.  With the index inside the
    history and the buttons in step with it, a back request followed by a
    forward request (when there is an entry before the current one), or a
    forward request followed by a back request (when the index is at an
    entry and there is one after it), both succeed and leave the entries, the index and the two buttons
    as they were. *)
Theorem back_and_forward_cancel (s : PinoutApp)
        (H : history_ok s) (Hb : buttons_ok s) :
  (0 < history_index s ->
   exists s1 s2,
     _navigate_back s = Ok tt s1 /\ _navigate_forward s1 = Ok tt s2 /\
     history_index s1 = history_index s - 1 /\
     history_of s2 = history_of s) /\
  (0 <= history_index s < Py.len (pin_history s) - 1 ->
   exists s1 s2,
     _navigate_forward s = Ok tt s1 /\ _navigate_back s1 = Ok tt s2 /\
     history_index s1 = history_index s + 1 /\
     history_of s2 = history_of s).
Proof.
  unfold history_ok in H. destruct Hb as [Hback Hfwd]. split; intros Hi.
  - destruct (go_to_spec (history_index s - 1) s)
      as (e1 & s1 & _ & Hgo1 & _ & Hh1 & Hi1 & _ & _); [lia |].
    destruct (go_to_spec (history_index s) s1)
      as (e2 & s2 & _ & Hgo2 & _ & Hh2 & Hi2 & [Hb2 Hf2] & _); [rewrite Hh1; lia |].
    exists s1, s2. repeat split.
    + rewrite navigate_back_go_to.
      destruct (Z.gtb_spec (history_index s) 0); [exact Hgo1 | lia].
    + rewrite navigate_forward_go_to, Hi1, Hh1.
      destruct (Z.ltb_spec (history_index s - 1) (Py.len (pin_history s) - 1));
        [| lia].
      replace (history_index s - 1 + 1) with (history_index s) by lia. exact Hgo2.
    + exact Hi1.
    + unfold history_of. rewrite Hb2, Hf2, Hback, Hfwd, Hi2, Hh2, Hh1. reflexivity.
  - destruct (go_to_spec (history_index s + 1) s)
      as (e1 & s1 & _ & Hgo1 & _ & Hh1 & Hi1 & _ & _); [lia |].
    destruct (go_to_spec (history_index s) s1)
      as (e2 & s2 & _ & Hgo2 & _ & Hh2 & Hi2 & [Hb2 Hf2] & _); [rewrite Hh1; lia |].
    exists s1, s2. repeat split.
    + rewrite navigate_forward_go_to.
      destruct (Z.ltb_spec (history_index s) (Py.len (pin_history s) - 1));
        [exact Hgo1 | lia].
    + rewrite navigate_back_go_to, Hi1.
      destruct (Z.gtb_spec (history_index s + 1) 0); [| lia].
      replace (history_index s + 1 - 1) with (history_index s) by lia. exact Hgo2.
    + exact Hi1.
    + unfold history_of. rewrite Hb2, Hf2, Hback, Hfwd, Hi2, Hh2, Hh1. reflexivity.
Qed.

(** An instance of X7: the history [GPIO2, adc, GPIO5] at its middle
    entry, back and forth. *)
Lemma back_and_forward_cancel_witness :
  let s := with_navigation_enabled true true
             (with_history_index 1
                (with_pin_history
                   [PinView "GPIO2"; CategoryView "adc" "ADC Pins"; PinView "GPIO5"]
                   (PinoutApp_init 1500))) in
  history_ok s /\ buttons_ok s /\ 0 < history_index s /\
  exists s1 s2,
    _navigate_back s = Ok tt s1 /\ _navigate_forward s1 = Ok tt s2 /\
    history_index s1 = history_index s - 1 /\
    history_of s2 = history_of s.
Proof.
  intros s.
  assert (H : history_ok s).
  { unfold history_ok, Py.len.
    cbn [s history_index pin_history with_history_index with_pin_history
         with_navigation_enabled length]. lia. }
  assert (Hb : buttons_ok s) by (split; reflexivity).
  assert (Hi : 0 < history_index s) by (cbn; lia).
  split; [exact H |]. split; [exact Hb |]. split; [exact Hi |].
  exact (proj1 (back_and_forward_cancel s H Hb) Hi).
Defined.

(** ** What a session does to the history and to the info box *)

Lemma handle_frame ev s :
  history_ok s -> returns (handle ev) s (fun _ s' => same_frame s s').
Proof.
  intros Hok. unfold history_ok in Hok.
  destruct ev as [p | key cname | | |]; cbn [handle].
  - eapply returns_weaken; [apply (visit_spec (PinView p)) |].
    cbn beta. intros _ s' [_ Hf]. exact Hf.
  - eapply returns_weaken; [apply (visit_spec (CategoryView key cname)) |].
    cbn beta. intros _ s' [_ Hf]. exact Hf.
  - unfold returns. rewrite navigate_back_go_to.
    destruct (Z.gtb_spec (history_index s) 0).
    + destruct (go_to_spec (history_index s - 1) s)
        as (e & s' & _ & Hgo & _ & _ & _ & _ & Hf); [lia |].
      exists tt, s'. split; assumption.
    + exists tt, s. split; reflexivity.
  - unfold returns. rewrite navigate_forward_go_to.
    destruct (Z.ltb_spec (history_index s) (Py.len (pin_history s) - 1)).
    + destruct (go_to_spec (history_index s + 1) s)
        as (e & s' & _ & Hgo & _ & _ & _ & _ & Hf); [lia |].
      exists tt, s'. split; assumption.
    + exists tt, s. split; reflexivity.
  - unfold mousePressEvent. apply returns_bind, returns_self.
    destruct (highlighted_buttons s).
    + apply returns_ret. reflexivity.
    + eapply returns_eq; [apply clear_highlights_run | apply cleared_frame].
Qed.

Lemma In_firstn {A : Type} (x : A) (n : nat) (l : list A) :
  In x (firstn n l) -> In x l.
Proof.
  revert l. induction n as [| n IH]; intros [| a l] H; cbn in *; try tauto.
  destruct H as [-> | H]; [now left | right; now apply IH].
Qed.

Lemma handle_history ev s :
  history_ok s ->
  returns (handle ev) s (fun _ s' =>
    incl (pin_history s') (pin_history s ++ view_of_event ev) /\
    (length (pin_history s') <= length (pin_history s) + length (view_of_event ev))%nat).
Proof.
  intros Hok.
  assert (Hvisit : forall d, returns (visit d) s (fun _ s' =>
            incl (pin_history s') (pin_history s ++ [d]) /\
            (length (pin_history s') <= length (pin_history s) + 1)%nat)).
  { intros d. eapply returns_weaken; [apply visit_spec |].
    cbn beta. intros _ s' [Hh _]. apply history_of_eq in Hh as (Hhist & _).
    rewrite Hhist, (recorded_keeps_prefix d s Hok). split.
    - apply incl_app; [| apply incl_appr, incl_refl].
      apply incl_appl. intros x Hx. eapply In_firstn, Hx.
    - rewrite length_app, length_firstn. cbn [length]. lia. }
  assert (Hsame : forall s', pin_history s' = pin_history s ->
            incl (pin_history s') (pin_history s ++ []) /\
            (length (pin_history s') <= length (pin_history s) + 0)%nat).
  { intros s' ->. rewrite app_nil_r. split; [apply incl_refl | lia]. }
  unfold history_ok in Hok.
  destruct ev as [p | key cname | | |]; cbn [handle view_of_event length].
  - apply (Hvisit (PinView p)).
  - apply (Hvisit (CategoryView key cname)).
  - unfold returns. rewrite navigate_back_go_to.
    destruct (Z.gtb_spec (history_index s) 0).
    + destruct (go_to_spec (history_index s - 1) s)
        as (e & s' & _ & Hgo & _ & Hh & _); [lia |].
      exists tt, s'. split; [exact Hgo | now apply Hsame].
    + exists tt, s. split; [reflexivity | now apply Hsame].
  - unfold returns. rewrite navigate_forward_go_to.
    destruct (Z.ltb_spec (history_index s) (Py.len (pin_history s) - 1)).
    + destruct (go_to_spec (history_index s + 1) s)
        as (e & s' & _ & Hgo & _ & Hh & _); [lia |].
      exists tt, s'. split; [exact Hgo | now apply Hsame].
    + exists tt, s. split; [reflexivity | now apply Hsame].
  - unfold mousePressEvent. apply returns_bind, returns_self.
    destruct (highlighted_buttons s).
    + apply returns_ret. now apply Hsame.
    + eapply returns_eq; [apply clear_highlights_run | now apply Hsame].
Qed.

(** X8: navigation never adds to the history.  After any session from the
    fresh application, every entry of the history is a view that was opened
    by a click of the session, and the history has at most as many entries
    as there were such clicks. *)
Theorem history_holds_only_clicked_views (width : Z) (evs : list event) :
  exists s,
    run evs (PinoutApp_init width) = Ok tt s /\
    incl (pin_history s) (flat_map view_of_event evs) /\
    (length (pin_history s) <= length (flat_map view_of_event evs))%nat.
Proof.
  pose (I := fun (done : list event) (s : PinoutApp) =>
    (history_ok s /\ buttons_ok s) /\
    incl (pin_history s) (flat_map view_of_event done) /\
    (length (pin_history s) <= length (flat_map view_of_event done))%nat).
  assert (Hrun : returns (run evs) (PinoutApp_init width)
                   (fun _ s => I ([] ++ evs) s)).
  { refine (returns_for_each handle I _ evs [] _ _).
    - intros done ev s [[Hok Hb] [Hincl Hlen]].
      eapply returns_weaken.
      + apply returns_conj; [apply (handle_spec ev s Hok Hb) |
                             apply (handle_history ev s Hok)].
      + cbn beta. intros _ s' [Hinv [Hincl' Hlen']].
        split; [exact Hinv |]. rewrite flat_map_app. cbn [flat_map].
        rewrite app_nil_r, length_app. split.
        * intros x Hx. apply Hincl' in Hx. apply in_app_iff in Hx.
          apply in_app_iff. destruct Hx as [Hx | Hx]; [left; now apply Hincl | now right].
        * lia.
    - unfold I. split; [split |].
      + unfold history_ok. cbn. lia.
      + split; reflexivity.
      + split; [intros x [] | cbn; lia]. }
  destruct (returns_unit _ _ _ Hrun) as [s [Hs [_ [Hincl Hlen]]]].
  exists s. split; [exact Hs |]. split; assumption.
Qed.

Lemma frame_rendering s s' e :
  same_frame s s' ->
  rendering (pin_data s') (pin_buttons s') e
  = rendering (pin_data s) (pin_buttons s) e.
Proof.
  intros Hf. destruct e as [p | key cname]; cbn [rendering].
  - now rewrite (frame_data _ _ Hf).
  - now rewrite (frame_category_pins _ _ key Hf), (frame_data _ _ Hf).
Qed.

(** Showing a view, directly or as a replay, draws what the view renders
    to, and leaves the info box alone when that is nothing. *)
Lemma show_view_info e nav s :
  returns
    (match e with
     | PinView p => show_pin_info p nav
     | CategoryView key cname => show_category_pins key cname nav
     end) s
    (fun _ s' =>
       match rendering (pin_data s) (pin_buttons s) e with
       | Some ws => info_layout s' = ws
       | None => info_layout s' = info_layout s
       end).
Proof.
  destruct e as [p | key cname]; cbn [rendering].
  - eapply returns_eq; [apply show_pin_info_run |].
    unfold shown_pin.
    assert (Hd : pin_data (if negb nav then recorded (PinView p) (cleared s)
                           else cleared s) = pin_data s)
      by (destruct nav; reflexivity).
    rewrite Hd. destruct (Py.dict_get p (pins (pin_data s))); cbn [option_map].
    + reflexivity.
    + destruct nav; reflexivity.
  - eapply returns_weaken; [apply show_category_pins_spec |].
    cbn. intros _ s' (_ & _ & _ & _ & Hi). exact Hi.
Qed.

Lemma recorded_current d s :
  0 <= history_index (recorded d s) /\
  Py.index (pin_history (recorded d s)) (history_index (recorded d s)) = Some d.
Proof.
  rewrite recorded_history_index, recorded_pin_history.
  set (kept := if history_index s <? Py.len (pin_history s) - 1
               then Py.slice_to (pin_history s) (history_index s + 1)
               else pin_history s).
  pose proof (len_nonneg kept) as Hk.
  rewrite len_app. change (Py.len [d]) with 1.
  split; [lia |].
  rewrite index_nonneg by (rewrite len_app; change (Py.len [d]) with 1; lia).
  rewrite nth_error_app2 by (unfold Py.len; lia).
  replace (Z.to_nat (Py.len kept + 1 - 1) - length kept)%nat with 0%nat
    by (unfold Py.len; lia).
  reflexivity.
Qed.

Lemma display_ok_of s s' :
  history_of s' = history_of s -> same_frame s s' ->
  info_layout s' = info_layout s -> display_ok s -> display_ok s'.
Proof.
  intros Hh Hf Hi. apply history_of_eq in Hh as (Hl & Hx & _ & _).
  unfold display_ok. rewrite Hl, Hx, Hi.
  intros [H | [Hpos [e [He Hr]]]]; [left; exact H | right].
  split; [exact Hpos |]. exists e. split; [exact He |].
  now rewrite (frame_rendering _ _ e Hf).
Qed.

Lemma visit_display d s : returns (visit d) s (fun _ s' => display_ok s').
Proof.
  eapply returns_weaken.
  - apply returns_conj; [apply visit_spec |].
    change (visit d) with (match d with
                           | PinView p => show_pin_info p false
                           | CategoryView key cname => show_category_pins key cname false
                           end).
    apply show_view_info.
  - cbn beta. intros _ s' [[Hh Hf] Hi].
    apply history_of_eq in Hh as (Hl & Hx & _ & _).
    destruct (recorded_current d s) as [Hpos Hcur].
    right. rewrite Hl, Hx. split; [exact Hpos |].
    exists d. split; [exact Hcur |].
    rewrite (frame_rendering _ _ d Hf).
    destruct (rendering (pin_data s) (pin_buttons s) d); [exact Hi | exact I].
Qed.

Lemma go_to_display (i : Z) s :
  0 <= i < Py.len (pin_history s) ->
  returns (go_to i) s (fun _ s' => display_ok s').
Proof.
  intros Hi. unfold go_to. apply returns_bind, returns_modify.
  destruct (index_in_range (pin_history s) i Hi) as [e [Hidx _]].
  apply returns_bind. apply (returns_eq _ _ e (with_history_index i s)).
  { unfold current_entry, bind, self.
    cbn [pin_history history_index with_history_index]. now rewrite Hidx. }
  apply returns_bind. eapply returns_weaken.
  - apply returns_conj; [apply replay_spec |].
    change (replay e) with (match e with
                            | PinView p => show_pin_info p true
                            | CategoryView key cname => show_category_pins key cname true
                            end).
    apply show_view_info.
  - cbn beta. intros _ s1 [[Hh Hf] Hinfo]. apply returns_modify.
    apply history_of_eq in Hh as (Hl & Hx & _ & _).
    cbn [pin_history history_index with_history_index] in Hl, Hx.
    right. cbn [history_index pin_history with_navigation_enabled pin_data
                pin_buttons info_layout].
    rewrite Hl, Hx. split; [lia |]. exists e. split; [exact Hidx |].
    rewrite (frame_rendering _ _ e Hf).
    cbn [pin_data pin_buttons with_history_index info_layout] in *.
    destruct (rendering (pin_data s) (pin_buttons s) e); [exact Hinfo | exact I].
Qed.

Lemma handle_display ev s :
  history_ok s -> display_ok s ->
  returns (handle ev) s (fun _ s' => display_ok s').
Proof.
  intros Hok Hd. unfold history_ok in Hok.
  destruct ev as [p | key cname | | |]; cbn [handle].
  - apply (visit_display (PinView p)).
  - apply (visit_display (CategoryView key cname)).
  - unfold returns. rewrite navigate_back_go_to.
    destruct (Z.gtb_spec (history_index s) 0).
    + apply go_to_display. lia.
    + exists tt, s. split; [reflexivity | exact Hd].
  - unfold returns. rewrite navigate_forward_go_to.
    destruct (Z.ltb_spec (history_index s) (Py.len (pin_history s) - 1)).
    + apply go_to_display. lia.
    + exists tt, s. split; [reflexivity | exact Hd].
  - unfold mousePressEvent. apply returns_bind, returns_self.
    destruct (highlighted_buttons s).
    + apply returns_ret. exact Hd.
    + eapply returns_eq; [apply clear_highlights_run |].
      eapply display_ok_of; [apply cleared_history | apply cleared_frame | | exact Hd].
      reflexivity.
Qed.

(** X9: the info box always shows the current entry of the history.  After
    any session from the fresh application, either nothing was viewed (the
    history is empty, the index is [-1]) and the info box still holds the
    placeholder, or the index points at an entry and the info box holds
    what that entry renders to: the panel of the pin, or the header and
    tags of the category.  (An entry for a pin the dataset does not know
    renders to nothing; the box then keeps an older content.) *)
Theorem info_box_shows_current_entry (width : Z) (evs : list event) :
  exists s,
    run evs (PinoutApp_init width) = Ok tt s /\
    ((history_index s = -1 /\ pin_history s = [] /\
      info_layout s = placeholder_layout) \/
     (0 <= history_index s /\
      exists e, Py.index (pin_history s) (history_index s) = Some e /\
                match rendering (pin_data s) (pin_buttons s) e with
                | Some ws => info_layout s = ws
                | None => True
                end)).
Proof.
  assert (Hrun : returns (run evs) (PinoutApp_init width)
                   (fun _ s => (history_ok s /\ buttons_ok s) /\ display_ok s)).
  { refine (returns_for_each handle
              (fun _ s => (history_ok s /\ buttons_ok s) /\ display_ok s)
              _ evs [] _ _).
    - intros _ ev s [[Hok Hb] Hd].
      apply returns_conj; [now apply handle_spec | now apply handle_display].
    - split; [split |].
      + unfold history_ok. cbn. lia.
      + split; reflexivity.
      + left. repeat split. }
  destruct (returns_unit _ _ _ Hrun) as [s [Hs [_ Hd]]].
  exists s. split; [exact Hs | exact Hd].
Qed.

(** ** The tags of a category list *)



Lemma insert_sorted_perm x l : Permutation (Py.insert_sorted x l) (x :: l).
Proof.
  induction l as [| y l IH]; cbn.
  - reflexivity.
  - destruct (String.leb x y); [reflexivity |].
    rewrite IH. apply perm_swap.
Qed.

Lemma sorted_perm l : Permutation (Py.sorted l) l.
Proof.
  induction l as [| x l IH]; cbn.
  - reflexivity.
  - fold (Py.sorted l). rewrite insert_sorted_perm. now apply perm_skip.
Qed.




Lemma tag_targets_app ws1 ws2 :
  tag_targets (ws1 ++ ws2) = tag_targets ws1 ++ tag_targets ws2.
Proof. apply flat_map_app. Qed.

Lemma tag_targets_enumerate (d : ESP32PinData) (i : nat) (l : list string) :
  tag_targets
    (flat_map
       (fun '(i, id) =>
          match Py.dict_get id (pins d) with
          | Some pin_info => [PinTagButton (name pin_info) (tag_color i) id]
          | None => []
          end)
       (enumerate_from i l))
  = filter (fun p => match Py.dict_get p (pins d) with
                     | Some _ => true
                     | None => false
                     end) l.
Proof.
  revert i. induction l as [| p l IH]; intros i; cbn [enumerate_from flat_map filter].
  - reflexivity.
  - rewrite tag_targets_app, IH.
    destruct (Py.dict_get p (pins d)); reflexivity.
Qed.

Lemma tag_targets_category_widgets d cname pins_ :
  tag_targets (category_widgets d cname pins_)
  = filter (fun p => match Py.dict_get p (pins d) with
                     | Some _ => true
                     | None => false
                     end) (Py.sorted pins_).
Proof.
  unfold category_widgets. rewrite !tag_targets_app.
  unfold enumerate. rewrite tag_targets_enumerate.
  cbn. now rewrite app_nil_r.
Qed.



(** ** Invariants of a session *)

(** A property of the application object that clearing the highlights and
    showing a view keep, and that does not look at the index or at the
    navigation buttons, is kept by every handler. *)
Lemma handle_preserves (P : PinoutApp -> Prop) :
  (forall s, P s -> P (cleared s)) ->
  (forall e nav s, P s -> returns (show_view e nav) s (fun _ s' => P s')) ->
  (forall i s, P s -> P (with_history_index i s)) ->
  (forall back fwd s, P s -> P (with_navigation_enabled back fwd s)) ->
  forall ev s, history_ok s -> P s -> returns (handle ev) s (fun _ s' => P s').
Proof.
  intros Hclear Hshow Hindex Hnav ev s Hok HP.
  assert (Hgo : forall i, 0 <= i < Py.len (pin_history s) ->
                          returns (go_to i) s (fun _ s' => P s')).
  { intros i Hi. unfold go_to. apply returns_bind, returns_modify.
    destruct (index_in_range (pin_history s) i Hi) as [e [Hidx _]].
    apply returns_bind. apply (returns_eq _ _ e (with_history_index i s)).
    { unfold current_entry, bind, self.
      cbn [pin_history history_index with_history_index]. now rewrite Hidx. }
    apply returns_bind. eapply returns_weaken.
    - apply (Hshow e true). apply Hindex, HP.
    - cbn beta. intros _ s1 H1. apply returns_modify. apply Hnav, H1. }
  unfold history_ok in Hok.
  destruct ev as [p | key cname | | |]; cbn [handle].
  - apply (Hshow (PinView p) false s HP).
  - apply (Hshow (CategoryView key cname) false s HP).
  - unfold returns. rewrite navigate_back_go_to.
    destruct (Z.gtb_spec (history_index s) 0).
    + apply Hgo. lia.
    + exists tt, s. split; [reflexivity | exact HP].
  - unfold returns. rewrite navigate_forward_go_to.
    destruct (Z.ltb_spec (history_index s) (Py.len (pin_history s) - 1)).
    + apply Hgo. lia.
    + exists tt, s. split; [reflexivity | exact HP].
  - unfold mousePressEvent. apply returns_bind, returns_self.
    destruct (highlighted_buttons s).
    + apply returns_ret. exact HP.
    + eapply returns_eq; [apply clear_highlights_run | apply Hclear, HP].
Qed.

(** Such a property holds after every session that starts where it holds,
    and the session keeps the frame. *)
Lemma run_preserves (P : PinoutApp -> Prop) :
  (forall ev s, history_ok s -> P s -> returns (handle ev) s (fun _ s' => P s')) ->
  forall evs s,
    history_ok s -> buttons_ok s -> P s ->
    returns (run evs) s (fun _ s' =>
      history_ok s' /\ buttons_ok s' /\ same_frame s s' /\ P s').
Proof.
  intros Hhandle evs s Hok Hb HP.
  refine (returns_for_each handle
            (fun _ s' => history_ok s' /\ buttons_ok s' /\ same_frame s s' /\ P s')
            _ evs [] s _).
  - intros _ ev s1 (Hok1 & Hb1 & Hf1 & HP1).
    eapply returns_weaken.
    + apply returns_conj; [apply (handle_spec ev s1 Hok1 Hb1) |].
      apply returns_conj; [apply (handle_frame ev s1 Hok1) |
                           apply (Hhandle ev s1 Hok1 HP1)].
    + cbn beta. intros _ s2 [[Hok2 Hb2] [Hf2 HP2]].
      repeat split; try assumption.
      * apply Hok2.
      * apply Hok2.
      * apply Hb2.
      * apply Hb2.
      * eapply same_frame_trans; eassumption.
  - repeat split; try assumption; try apply Hok; apply Hb.
Qed.

Lemma init_history_ok width :
  history_ok (PinoutApp_init width) /\ buttons_ok (PinoutApp_init width).
Proof.
  split; [unfold history_ok; cbn; lia | split; reflexivity].
Qed.

(** ** The legend *)

Lemma filter_all {A : Type} (f : A -> bool) (l : list A) :
  (forall x, In x l -> f x = true) -> filter f l = l.
Proof.
  induction l as [| a l IH]; cbn; intros H.
  - reflexivity.
  - rewrite (H a) by now left. f_equal. apply IH. intros x Hx. apply H. now right.
Qed.

Lemma arrows_length s l :
  length (flat_map (arrow_of s) l) = length (highlightable s l).
Proof.
  unfold highlightable. induction l as [| p l IH]; cbn [flat_map filter].
  - reflexivity.
  - rewrite length_app, IH, str_in_keys_get. unfold arrow_of.
    destruct (Py.dict_get p (pin_buttons s)); reflexivity.
Qed.

(** X11: the legend and the data fit together.  For each of the eight
    legend entries, the pins [show_category_pins] resolves for its key are
    at least one, pairwise distinct, and every one of them has a button and
    an entry in the pin table; so a click on the entry, at any moment of
    any session, highlights exactly the resolved pins, with one arrow each,
    and lists every one of them as a tag, in ascending order. *)
Theorem legend_click_highlights_resolved_pins
        (width : Z) (evs : list event) (entry : string * string * string)
        (H : In entry categories_data) :
  let pins_ := category_pins shipped_data shipped_buttons (snd entry) in
  pins_ <> [] /\ NoDup pins_ /\
  (forall p, In p pins_ ->
             In p (Py.dict_keys shipped_buttons) /\
             In p (Py.dict_keys (pins shipped_data))) /\
  exists s s',
    run evs (PinoutApp_init width) = Ok tt s /\
    legend_clicked entry s = Ok tt s' /\
    highlighted_buttons s' = pins_ /\
    length (arrow_labels s') = length pins_ /\
    tag_targets (info_layout s') = Py.sorted pins_.
Proof.
  cbn zeta.
  assert (Hall : forallb
            (fun entry =>
               let pins_ := category_pins shipped_data shipped_buttons (snd entry) in
               negb (Nat.eqb (length pins_) 0) && distinct pins_
               && forallb (fun p => Py.str_in p (Py.dict_keys shipped_buttons)
                                    && Py.str_in p (Py.dict_keys (pins shipped_data)))
                          pins_)
            categories_data = true) by (vm_compute; reflexivity).
  rewrite forallb_forall in Hall. specialize (Hall entry H). cbn zeta in Hall.
  apply andb_true_iff in Hall as [Hall Hkeys].
  apply andb_true_iff in Hall as [Hne Hnd].
  rewrite forallb_forall in Hkeys.
  set (pins_ := category_pins shipped_data shipped_buttons (snd entry)) in *.
  assert (Hin : forall p, In p pins_ ->
                          In p (Py.dict_keys shipped_buttons) /\
                          In p (Py.dict_keys (pins shipped_data))).
  { intros p Hp. specialize (Hkeys p Hp). apply andb_true_iff in Hkeys.
    rewrite !str_in_In in Hkeys. exact Hkeys. }
  split. { intros Hnil. rewrite Hnil in Hne. discriminate Hne. }
  split. { now apply distinct_NoDup. }
  split. { exact Hin. }
  destruct (init_history_ok width) as [Hok Hb].
  destruct (returns_unit _ _ _
              (run_preserves (fun _ => True) (fun ev s _ _ =>
                 returns_weaken _ _ _ _ (handle_frame ev s ltac:(assumption))
                   (fun _ _ _ => I))
                 evs (PinoutApp_init width) Hok Hb I))
    as [s [Hrun (_ & _ & Hf & _)]].
  destruct entry as [[cname color] key]. cbn [snd] in *.
  destruct (returns_unit _ _ _ (show_category_pins_spec key cname false s))
    as [s' [Hclick (_ & _ & Hhl & Harr & Hinfo)]].
  cbn zeta in Hhl, Harr, Hinfo.
  assert (Hpins : category_pins (pin_data s) (pin_buttons s) key = pins_)
    by apply (frame_category_pins _ _ key Hf).
  rewrite Hpins in Hhl, Harr, Hinfo.
  assert (Hall : highlightable s pins_ = pins_).
  { apply filter_all. intros p Hp. rewrite (frame_keys _ _ Hf).
    apply str_in_In, Hin, Hp. }
  exists s, s'. split; [exact Hrun |]. split; [exact Hclick |].
  split; [now rewrite Hhl |].
  split; [now rewrite Harr, arrows_length, Hall |].
  rewrite Hinfo, tag_targets_category_widgets, (frame_data _ _ Hf).
  apply filter_all. intros p Hp.
  assert (Hp' : In p pins_)
    by (eapply Permutation_in; [apply sorted_perm | exact Hp]).
  apply Hin in Hp' as [_ Hk]. apply str_in_In in Hk.
  rewrite str_in_keys_get in Hk. exact Hk.
Qed.

(** An instance of X11: the SPI entry of the legend, clicked first. *)
Lemma legend_click_highlights_resolved_pins_witness :
  In ("SPI Pins", "#C0C0C0", "spi") categories_data /\
  exists s s',
    run [] (PinoutApp_init 1500) = Ok tt s /\
    legend_clicked ("SPI Pins", "#C0C0C0", "spi") s = Ok tt s' /\
    highlighted_buttons s'
    = category_pins shipped_data shipped_buttons "spi".
Proof.
  assert (H : In ("SPI Pins", "#C0C0C0", "spi") categories_data)
    by (cbn; tauto).
  split; [exact H |].
  destruct (legend_click_highlights_resolved_pins 1500 [] _ H)
    as (_ & _ & _ & s & s' & Hrun & Hclick & Hhl & _).
  exists s, s'. split; [exact Hrun |]. split; [exact Hclick | exact Hhl].
Defined.



(** ** Highlighting and clearing, exactly *)

Lemma style_exact_same s s' :
  pin_data s' = pin_data s -> pin_buttons s' = pin_buttons s ->
  highlighted_buttons s' = highlighted_buttons s ->
  style_exact s -> style_exact s'.
Proof. unfold style_exact. intros -> -> ->. auto. Qed.

Lemma cleared_style_exact s : style_exact s -> style_exact (cleared s).
Proof.
  intros Hok k b' Hget. cbn [pin_buttons cleared with_arrow_labels
    with_highlighted_buttons with_pin_buttons] in Hget.
  rewrite fold_restore_get in Hget.
  change (highlighted_buttons (cleared s)) with (@nil string).
  change (pin_data (cleared s)) with (pin_data s).
  change (Py.str_in k []) with false. cbn zeta.
  destruct (Py.dict_get k (pin_buttons s)) as [b |] eqn:Hb.
  - destruct (Hok k b Hb) as (Hid & Hst & Horig). cbn zeta in Hst, Horig.
    destruct (Py.str_in k (highlighted_buttons s)) eqn:Hin; cbn in Hget;
      injection Hget as <-.
    + destruct Horig as [Ho | [Hf _]]; [| discriminate Hf].
      unfold restore_style. rewrite Ho.
      destruct b as [? ? ? ? ? ? ?]; cbn in *. subst. auto.
    + split; [exact Hid |]. split; [exact Hst | exact Horig].
  - destruct (Py.str_in k (highlighted_buttons s)); discriminate Hget.
Qed.

Lemma highlight_body_style_exact p s :
  style_exact s ->
  returns
    (s0 <- self ;;
     match Py.dict_get p (pin_buttons s0) with
     | Some _ =>
         _highlight_button p ;;
         modify (fun s => with_highlighted_buttons (highlighted_buttons s ++ [p]) s)
     | None => ret tt
     end) s
    (fun _ s' => style_exact s').
Proof.
  intros Hok. apply returns_bind, returns_self.
  destruct (Py.dict_get p (pin_buttons s)) as [b |] eqn:Hget.
  - apply returns_bind. unfold _highlight_button.
    apply returns_bind, returns_self. rewrite Hget.
    apply returns_bind, returns_modify, returns_modify, returns_modify.
    intros k b' Hget'.
    cbn [pin_buttons highlighted_buttons pin_data with_highlighted_buttons
         with_arrow_labels with_pin_buttons] in *.
    rewrite dict_get_modify in Hget'. rewrite str_in_app.
    destruct (Hok p b Hget) as (Hidp & Hstp & Horigp). cbn zeta in Hstp, Horigp.
    destruct (String.eqb_spec k p) as [-> | Hne].
    + rewrite Hget in Hget'. cbn [option_map] in Hget'. injection Hget' as <-.
      unfold Py.str_in at 2. cbn [existsb]. rewrite String.eqb_refl, orb_true_r.
      cbn zeta. rewrite Hidp.
      destruct b as [id x y w h st orig]; cbn in *. subst id.
      destruct Horigp as [-> | [Hf ->]]; cbn.
      * auto.
      * rewrite Hf in Hstp. subst st. auto.
    + destruct (Hok k b' Hget') as (Hid & Hst & Horig). cbn zeta in Hst, Horig.
      assert (Hkp : Py.str_in k [p] = false).
      { unfold Py.str_in. cbn [existsb]. rewrite orb_false_r.
        now apply String.eqb_neq. }
      cbn zeta. rewrite Hkp, orb_false_r. repeat split; assumption.
  - apply returns_ret. exact Hok.
Qed.

Lemma show_view_style_exact e nav s :
  style_exact s -> returns (show_view e nav) s (fun _ s' => style_exact s').
Proof.
  intros Hok. apply cleared_style_exact in Hok.
  destruct e as [p | key cname]; cbn [show_view].
  - eapply returns_eq; [apply show_pin_info_run |].
    unfold shown_pin.
    destruct nav; cbn [negb]; destruct (Py.dict_get p _);
      (eapply style_exact_same; [| | | exact Hok]; reflexivity).
  - unfold show_category_pins.
    apply returns_bind. eapply returns_eq; [apply clear_highlights_run |].
    apply returns_bind.
    apply (returns_eq _ _ tt
             (if negb nav then recorded (CategoryView key cname) (cleared s)
              else cleared s)).
    { destruct nav; cbn [negb]; [reflexivity | apply record_view_run]. }
    assert (Hok1 : style_exact (if negb nav
                                then recorded (CategoryView key cname) (cleared s)
                                else cleared s)).
    { destruct nav; cbn [negb]; [exact Hok |].
      eapply style_exact_same; [| | | exact Hok]; reflexivity. }
    apply returns_bind, returns_self. cbn zeta.
    apply returns_bind.
    eapply returns_weaken.
    + refine (returns_for_each _ (fun _ s' => style_exact s') _ _ [] _ Hok1).
      intros _ p s1 H1. apply highlight_body_style_exact, H1.
    + cbn beta. intros _ s2 H2.
      eapply returns_eq; [apply display_category_info_run |].
      eapply style_exact_same; [| | | exact H2]; reflexivity.
Qed.

Lemma handle_style_exact ev s :
  history_ok s -> style_exact s ->
  returns (handle ev) s (fun _ s' => style_exact s').
Proof.
  apply (handle_preserves style_exact).
  - apply cleared_style_exact.
  - apply show_view_style_exact.
  - intros i s0 H. eapply style_exact_same; [| | | exact H]; reflexivity.
  - intros b f s0 H. eapply style_exact_same; [| | | exact H]; reflexivity.
Qed.

Lemma init_style_exact width : style_exact (PinoutApp_init width).
Proof.
  intros k b Hget.
  change (pin_buttons (PinoutApp_init width))
    with (_create_pin_buttons shipped_data) in Hget.
  change (pin_data (PinoutApp_init width)) with shipped_data.
  change (highlighted_buttons (PinoutApp_init width)) with (@nil string).
  rewrite create_pin_buttons_get in Hget.
  destruct (Py.dict_get k _get_pin_positions) as [[[[x y] w] h] |];
    [| discriminate Hget].
  cbn [option_map] in Hget. injection Hget as <-. cbn. auto.
Qed.

(** X13: highlighting and clearing are exact inverses on the style
    sheets.  After any session from the fresh application, every button is
    where it was created; a button in the highlight list carries the
    highlight style with the hover colour of its pin's category, and every
    other button carries the very style sheet it was created with; and
    [_clear_highlights] then brings every button back to the style sheet it
    was created with. *)
Theorem highlight_then_clear_restores_styles (width : Z) (evs : list event) :
  exists s s2,
    run evs (PinoutApp_init width) = Ok tt s /\
    _clear_highlights s = Ok tt s2 /\
    forall k b,
      Py.dict_get k (pin_buttons s) = Some b ->
      exists b0 b2,
        Py.dict_get k shipped_buttons = Some b0 /\
        geometry b = geometry b0 /\
        styleSheet b
        = (if Py.str_in k (highlighted_buttons s)
           then HighlightStyle (hover_color_of (get_pin_category shipped_data k))
           else styleSheet b0) /\
        Py.dict_get k (pin_buttons s2) = Some b2 /\
        styleSheet b2 = styleSheet b0.
Proof.
  destruct (init_history_ok width) as [Hok Hb].
  destruct (returns_unit _ _ _
              (run_preserves style_exact handle_style_exact evs
                 (PinoutApp_init width) Hok Hb (init_style_exact width)))
    as [s [Hrun (_ & _ & Hf & Hex)]].
  exists s, (cleared s). split; [exact Hrun |].
  split; [apply clear_highlights_run |].
  intros k b Hget.
  assert (Hd : pin_data s = shipped_data) by apply (frame_data _ _ Hf).
  assert (Hlay : layout_of (pin_buttons s) = layout_of shipped_buttons).
  { unfold same_frame, frame_of in Hf. now injection Hf. }
  assert (Hg : option_map geometry (Py.dict_get k shipped_buttons)
               = Some (geometry b)).
  { rewrite layout_get, <- Hlay, <- layout_get, Hget. reflexivity. }
  destruct (Py.dict_get k shipped_buttons) as [b0 |] eqn:Hb0; [| discriminate Hg].
  cbn [option_map] in Hg.
  assert (Hgeo : geometry b = geometry b0) by congruence.
  destruct (init_style_exact width k b0 Hb0) as (_ & Hst0 & _).
  cbn zeta in Hst0.
  change (highlighted_buttons (PinoutApp_init width)) with (@nil string) in Hst0.
  change (pin_data (PinoutApp_init width)) with shipped_data in Hst0.
  change (Py.str_in k []) with false in Hst0.
  destruct (Hex k b Hget) as (_ & Hst & _). cbn zeta in Hst. rewrite Hd in Hst.
  pose proof (cleared_style_exact s Hex) as Hex2.
  assert (Hget2 : exists b2, Py.dict_get k (pin_buttons (cleared s)) = Some b2).
  { cbn [pin_buttons cleared with_arrow_labels with_highlighted_buttons
         with_pin_buttons].
    rewrite fold_restore_get, Hget.
    destruct (Py.str_in k (highlighted_buttons s)); eexists; reflexivity. }
  destruct Hget2 as [b2 Hget2].
  destruct (Hex2 k b2 Hget2) as (_ & Hst2 & _). cbn zeta in Hst2.
  change (highlighted_buttons (cleared s)) with (@nil string) in Hst2.
  change (pin_data (cleared s)) with (pin_data s) in Hst2.
  change (Py.str_in k []) with false in Hst2. rewrite Hd in Hst2.
  exists b0, b2. split; [reflexivity |]. split; [exact Hgeo |].
  split; [| split; [exact Hget2 | congruence]].
  rewrite Hst, Hst0. reflexivity.
Qed.

(** ** Arrows, and a click on the window *)

Lemma arrows_of_highlightable s l :
  flat_map (arrow_of s) (highlightable s l) = flat_map (arrow_of s) l.
Proof.
  unfold highlightable. induction l as [| p l IH]; cbn [filter flat_map].
  - reflexivity.
  - rewrite str_in_keys_get. unfold arrow_of at 2.
    destruct (Py.dict_get p (pin_buttons s)) as [b |] eqn:Hb.
    + cbn [flat_map]. rewrite IH. unfold arrow_of at 1. now rewrite Hb.
    + exact IH.
Qed.

Lemma flat_map_arrow_of_frame s s' l :
  same_frame s s' -> flat_map (arrow_of s') l = flat_map (arrow_of s) l.
Proof.
  intros Hf. apply flat_map_ext. intros p. now apply frame_arrow_of.
Qed.

Lemma filter_idempotent {A : Type} (f : A -> bool) (l : list A) :
  filter f (filter f l) = filter f l.
Proof.
  apply filter_all. intros x Hx. now apply filter_In in Hx.
Qed.

Lemma show_view_arrows e nav s :
  returns (show_view e nav) s (fun _ s' =>
    arrow_labels s' = flat_map (arrow_of s') (highlighted_buttons s') /\
    highlightable s' (highlighted_buttons s') = highlighted_buttons s').
Proof.
  destruct e as [p | key cname]; cbn [show_view].
  - eapply returns_eq; [apply show_pin_info_run |].
    destruct (shown_pin_highlights p nav s) as [-> ->]. split; reflexivity.
  - eapply returns_weaken; [apply show_category_pins_spec |].
    cbn. intros _ s' (Hf & _ & Hhl & Harr & _).
    rewrite Hhl, Harr, (flat_map_arrow_of_frame _ _ _ Hf),
      (frame_highlightable _ _ _ Hf).
    split; [symmetry; apply arrows_of_highlightable | apply filter_idempotent].
Qed.

Lemma arrows_pair_with_buttons s (l : list string) :
  (forall p, In p l -> Py.str_in p (Py.dict_keys (pin_buttons s)) = true) ->
  Forall2
    (fun a p =>
       exists b w,
         Py.dict_get p (pin_buttons s) = Some b /\
         a = arrow_for w (hover_color_of (get_pin_category (pin_data s) (pin_id b))) b)
    (flat_map (arrow_of s) l) l.
Proof.
  induction l as [| p l IH]; intros Hall; cbn [flat_map].
  - constructor.
  - assert (Hp : Py.str_in p (Py.dict_keys (pin_buttons s)) = true)
      by (apply Hall; now left).
    rewrite str_in_keys_get in Hp. unfold arrow_of at 1.
    destruct (Py.dict_get p (pin_buttons s)) as [b |] eqn:Hget; [| discriminate Hp].
    cbn [app]. constructor.
    + exists b, (content_width s). split; [exact Hget | reflexivity].
    + apply IH. intros q Hq. apply Hall. now right.
Qed.

(** X14: one arrow per highlighted button.  After any session from the
    fresh application the arrow labels pair off, in order, with the buttons
    in [highlighted_buttons]: each is the arrow [_highlight_button] makes
    for that button, in the hover colour of its pin's category, for the
    width the content widget had when it was made; so [mousePressEvent],
    which looks only at [highlighted_buttons] to decide whether to clear,
    always leaves both lists empty, and it leaves the history, the
    navigation buttons and the info box alone. *)
Theorem one_arrow_per_highlighted_button (width : Z) (evs : list event) :
  exists s s',
    run evs (PinoutApp_init width) = Ok tt s /\
    Forall2
      (fun a p =>
         exists b w,
           Py.dict_get p (pin_buttons s) = Some b /\
           a = arrow_for w
                 (hover_color_of (get_pin_category (pin_data s) (pin_id b))) b)
      (arrow_labels s) (highlighted_buttons s) /\
    length (arrow_labels s) = length (highlighted_buttons s) /\
    mousePressEvent s = Ok tt s' /\
    highlighted_buttons s' = [] /\ arrow_labels s' = [] /\
    history_of s' = history_of s /\
    info_layout s' = info_layout s.
Proof.
  destruct (init_history_ok width) as [Hok Hb].
  pose (P := fun s =>
    arrow_labels s = flat_map (arrow_of s) (highlighted_buttons s) /\
    highlightable s (highlighted_buttons s) = highlighted_buttons s).
  assert (Hhandle : forall ev s, history_ok s -> P s ->
                                 returns (handle ev) s (fun _ s' => P s')).
  { apply (handle_preserves P).
    - intros s _. split; reflexivity.
    - intros e nav s _. apply show_view_arrows.
    - intros i s H. exact H.
    - intros b f s H. exact H. }
  destruct (returns_unit _ _ _
              (run_preserves P Hhandle evs (PinoutApp_init width) Hok Hb
                 (conj eq_refl eq_refl)))
    as [s [Hrun (_ & _ & _ & [HP HQ])]].
  assert (Hlen : length (arrow_labels s) = length (highlighted_buttons s))
    by now rewrite HP, arrows_length, HQ.
  assert (Hpair : Forall2
            (fun a p =>
               exists b w,
                 Py.dict_get p (pin_buttons s) = Some b /\
                 a = arrow_for w
                       (hover_color_of (get_pin_category (pin_data s) (pin_id b))) b)
            (arrow_labels s) (highlighted_buttons s)).
  { rewrite HP. apply arrows_pair_with_buttons.
    intros p Hp. unfold highlightable in HQ. rewrite <- HQ in Hp.
    now apply filter_In in Hp. }
  exists s.
  destruct (highlighted_buttons s) as [| h hl] eqn:Hhl.
  - exists s. split; [exact Hrun |]. split; [exact Hpair |]. split; [exact Hlen |].
    split; [unfold mousePressEvent, bind, self; now rewrite Hhl |].
    split; [exact Hhl |]. split; [rewrite HP; reflexivity |].
    split; reflexivity.
  - exists (cleared s). split; [exact Hrun |]. split; [exact Hpair |].
    split; [exact Hlen |].
    split; [unfold mousePressEvent, bind, self; rewrite Hhl;
            apply clear_highlights_run |].
    repeat split.
Qed.

(** ** The keyboard *)

(** X15: [keyPressEvent] only navigates.  Provided Ctrl alone and Ctrl with
    Shift are different modifier values, in a state with the index inside
    the history a key press never raises and never changes the entries of
    the history; Ctrl+Z does what a back request does, Ctrl+Shift+Z what a
    forward request does, and any other key or modifier combination
    changes nothing at all. *)
Theorem key_press_only_navigates
        (ControlModifier ShiftModifier Key_Z modifiers key : Z) (s : PinoutApp)
        (Hmod : Z.lor ControlModifier ShiftModifier <> ControlModifier)
        (H : history_ok s) (Hb : buttons_ok s) :
  exists s',
    keyPressEvent ControlModifier ShiftModifier Key_Z modifiers key s = Ok tt s' /\
    pin_history s' = pin_history s /\
    history_ok s' /\ buttons_ok s' /\
    (modifiers = ControlModifier -> key = Key_Z ->
     _navigate_back s = Ok tt s') /\
    (modifiers = Z.lor ControlModifier ShiftModifier -> key = Key_Z ->
     _navigate_forward s = Ok tt s') /\
    (key <> Key_Z \/
     (modifiers <> ControlModifier /\
      modifiers <> Z.lor ControlModifier ShiftModifier) -> s' = s).
Proof.
  unfold keyPressEvent.
  destruct (Z.eqb_spec key Key_Z) as [-> | Hkey].
  - destruct (Z.eqb_spec modifiers (Z.lor ControlModifier ShiftModifier))
      as [-> | Hfwd]; cbn [andb].
    + destruct (returns_unit _ _ _ (handle_spec ForwardRequested s H Hb))
        as [s' [Hrun [Hok' Hb']]]. cbn [handle] in Hrun.
      exists s'. split; [exact Hrun |].
      split; [rewrite <- (navigate_forward_history s), Hrun; reflexivity |].
      split; [exact Hok' |]. split; [exact Hb' |].
      split; [intros Heq; congruence |].
      split; [intros _ _; exact Hrun |].
      intros [Hk | [_ Hk]]; congruence.
    + destruct (Z.eqb_spec modifiers ControlModifier) as [-> | Hback]; cbn [andb].
      * destruct (returns_unit _ _ _ (handle_spec BackRequested s H Hb))
          as [s' [Hrun [Hok' Hb']]]. cbn [handle] in Hrun.
        exists s'. split; [exact Hrun |].
        split; [rewrite <- (navigate_back_history s), Hrun; reflexivity |].
        split; [exact Hok' |]. split; [exact Hb' |].
        split; [intros _ _; exact Hrun |].
        split; [intros Heq; congruence |].
        intros [Hk | [Hk _]]; congruence.
      * exists s. split; [reflexivity |]. split; [reflexivity |].
        split; [exact H |]. split; [exact Hb |].
        split; [intros Heq; congruence |].
        split; [intros Heq; congruence |]. reflexivity.
  - rewrite !andb_false_r.
    exists s. split; [reflexivity |]. split; [reflexivity |].
    split; [exact H |]. split; [exact Hb |].
    split; [intros _ Heq; congruence |].
    split; [intros _ Heq; congruence |]. reflexivity.
Qed.

(** An instance of X15, with the values Qt gives to [ControlModifier],
    [ShiftModifier] and [Key_Z]: Ctrl+Z in the history [GPIO2, adc, GPIO5]
    at its middle entry. *)
Lemma key_press_only_navigates_witness :
  let s := with_navigation_enabled true true
             (with_history_index 1
                (with_pin_history
                   [PinView "GPIO2"; CategoryView "adc" "ADC Pins"; PinView "GPIO5"]
                   (PinoutApp_init 1500))) in
  Z.lor 67108864 33554432 <> 67108864 /\ history_ok s /\ buttons_ok s /\
  exists s',
    keyPressEvent 67108864 33554432 90 67108864 90 s = Ok tt s' /\
    pin_history s' = pin_history s.
Proof.
  intros s.
  assert (Hmod : Z.lor 67108864 33554432 <> 67108864) by (cbn; discriminate).
  assert (H : history_ok s).
  { unfold history_ok, Py.len.
    cbn [s history_index pin_history with_history_index with_pin_history
         with_navigation_enabled length]. lia. }
  assert (Hb : buttons_ok s) by (split; reflexivity).
  split; [exact Hmod |]. split; [exact H |]. split; [exact Hb |].
  destruct (key_press_only_navigates 67108864 33554432 90 67108864 90 s Hmod H Hb)
    as (s' & Hrun & Hh & _).
  exists s'. split; [exact Hrun | exact Hh].
Defined.

(** ** What a replay shows *)

Lemma show_view_highlights e nav s :
  returns (show_view e nav) s (fun _ s' =>
    match e with
    | PinView _ => highlighted_buttons s' = [] /\ arrow_labels s' = []
    | CategoryView key _ =>
        let pins_ := category_pins (pin_data s) (pin_buttons s) key in
        highlighted_buttons s' = highlightable s pins_ /\
        arrow_labels s' = flat_map (arrow_of s) pins_
    end).
Proof.
  destruct e as [p | key cname]; cbn [show_view].
  - eapply returns_eq; [apply show_pin_info_run | apply shown_pin_highlights].
  - eapply returns_weaken; [apply show_category_pins_spec |].
    cbn. intros _ s' (_ & _ & Hhl & Harr & _). split; assumption.
Qed.

(** A replay returns, leaves the history and the frame as they are, and
    shows the entry. *)
Lemma replay_shows e s :
  returns (replay e) s (fun _ s' =>
    same_history s s' /\ same_frame s s' /\ shown e s s').
Proof.
  eapply returns_weaken.
  - apply returns_conj; [apply replay_spec |].
    apply returns_conj; [apply (show_view_info e true s) |
                         apply (show_view_highlights e true s)].
  - cbn beta. intros _ s' [[Hh Hf] [Hi Hhl]].
    split; [exact Hh |]. split; [exact Hf |]. split; [exact Hi | exact Hhl].
Qed.

(** Moving to a position of the list shows the entry found there. *)
Lemma go_to_shows (i : Z) s :
  0 <= i < Py.len (pin_history s) ->
  exists e s',
    nth_error (pin_history s) (Z.to_nat i) = Some e /\
    go_to i s = Ok tt s' /\
    (replay e ;; _update_navigation_buttons) (with_history_index i s) = Ok tt s' /\
    pin_history s' = pin_history s /\
    history_index s' = i /\
    Py.index (pin_history s') (history_index s') = Some e /\
    shown e s s'.
Proof.
  intros Hi.
  destruct (go_to_spec i s Hi) as (e & s' & Hn & Hgo & Hre & Hh & Hx & _ & _).
  exists e, s'.
  split; [exact Hn |]. split; [exact Hgo |]. split; [exact Hre |].
  split; [exact Hh |]. split; [exact Hx |]. split.
  - rewrite Hh, Hx, index_nonneg by exact Hi. exact Hn.
  - destruct (returns_unit _ _ _ (replay_shows e (with_history_index i s)))
      as [s1 [Hrun (_ & _ & Hshown)]].
    unfold bind in Hre. rewrite Hrun in Hre.
    unfold _update_navigation_buttons, modify in Hre.
    injection Hre as <-. exact Hshown.
Qed.

(** C2: with the index inside the history, [_navigate_back] moves the index
    one step down and yields the entry now under it, which it replays: the
    info box and the highlight set become those of that entry; with the
    index at 0 or -1 it does nothing at all.  [_navigate_forward] does the
    same one step up when the index is before the last position.  Neither
    changes the list of entries, because a replay (the view shown with
    [from_navigation=True]) shows the entry and leaves the history as it
    is. *)
Theorem navigation_moves_index_only (s : PinoutApp) (H : history_ok s) :
  (if history_index s >? 0
   then exists e s',
       nth_error (pin_history s) (Z.to_nat (history_index s - 1)) = Some e /\
       _navigate_back s = Ok tt s' /\
       (replay e ;; _update_navigation_buttons)
         (with_history_index (history_index s - 1) s) = Ok tt s' /\
       pin_history s' = pin_history s /\
       history_index s' = history_index s - 1 /\
       Py.index (pin_history s') (history_index s') = Some e /\
       shown e s s'
   else _navigate_back s = Ok tt s) /\
  (if history_index s <? Py.len (pin_history s) - 1
   then exists e s',
       nth_error (pin_history s) (Z.to_nat (history_index s + 1)) = Some e /\
       _navigate_forward s = Ok tt s' /\
       (replay e ;; _update_navigation_buttons)
         (with_history_index (history_index s + 1) s) = Ok tt s' /\
       pin_history s' = pin_history s /\
       history_index s' = history_index s + 1 /\
       Py.index (pin_history s') (history_index s') = Some e /\
       shown e s s'
   else _navigate_forward s = Ok tt s) /\
  (forall e, exists s',
      replay e s = Ok tt s' /\ history_of s' = history_of s /\ shown e s s') /\
  pin_history (state_of (_navigate_back s)) = pin_history s /\
  pin_history (state_of (_navigate_forward s)) = pin_history s.
Proof.
  unfold history_ok in H.
  split; [| split; [| split; [| split]]].
  - rewrite navigate_back_go_to.
    destruct (Z.gtb_spec (history_index s) 0) as [Hpos | Hnpos]; [| reflexivity].
    apply go_to_shows. lia.
  - rewrite navigate_forward_go_to.
    destruct (Z.ltb_spec (history_index s) (Py.len (pin_history s) - 1)) as [Hlt | Hge];
      [| reflexivity].
    apply go_to_shows. lia.
  - intros e.
    destruct (returns_unit _ _ _ (replay_shows e s)) as [s' [Hrun (Hh & _ & Hs)]].
    exists s'. split; [exact Hrun |]. split; [exact Hh | exact Hs].
  - apply navigate_back_history.
  - apply navigate_forward_history.
Qed.

(** An instance of C2: the history [GPIO2, adc, GPIO5] at its middle entry.
    A back request moves to index 0 and draws the panel of GPIO2, with
    nothing highlighted. *)
Lemma navigation_moves_index_only_witness :
  let s := with_history_index 1
             (with_pin_history
                [PinView "GPIO2"; CategoryView "adc" "ADC Pins"; PinView "GPIO5"]
                (PinoutApp_init 1500)) in
  history_ok s /\
  exists s',
    _navigate_back s = Ok tt s' /\
    pin_history s' = pin_history s /\
    history_index s' = 0 /\
    info_layout s'
    = pin_info_widgets
        (mkPin "GPIO2" ["ADC2 –CH2–"; "PWM"] "Input/Output"
               "Must be low to enter boot mode") /\
    highlighted_buttons s' = [] /\ arrow_labels s' = [].
Proof.
  intros s.
  assert (H : history_ok s).
  { unfold history_ok, Py.len.
    cbn [s history_index pin_history with_history_index with_pin_history length]. lia. }
  split; [exact H |].
  pose proof (proj1 (navigation_moves_index_only s H)) as Hback.
  cbv beta iota in Hback.
  destruct Hback as (e & s' & Hn & Hrun & _ & Hh & Hx & _ & Hinfo & Hhl).
  assert (He : e = PinView "GPIO2").
  { assert (Hn' : nth_error (pin_history s) (Z.to_nat (history_index s - 1))
                  = Some (PinView "GPIO2")) by reflexivity.
    rewrite Hn' in Hn. now injection Hn. }
  subst e.
  assert (Hr : rendering (pin_data s) (pin_buttons s) (PinView "GPIO2")
               = Some (pin_info_widgets
                         (mkPin "GPIO2" ["ADC2 –CH2–"; "PWM"] "Input/Output"
                                "Must be low to enter boot mode")))
    by reflexivity.
  rewrite Hr in Hinfo.
  exists s'. split; [exact Hrun |]. split; [exact Hh |].
  split; [exact Hx |]. split; [exact Hinfo | exact Hhl].
Defined.

(** ** A category opened in the shipped application *)

Lemma session_frame width evs :
  returns (run evs) (PinoutApp_init width)
          (fun _ s => same_frame (PinoutApp_init width) s).
Proof.
  destruct (init_history_ok width) as [Hok Hb].
  eapply returns_weaken.
  - apply (run_preserves (fun _ => True)
             (fun ev s Hs _ =>
                returns_weaken _ _ _ _ (handle_frame ev s Hs) (fun _ _ _ => I))
             evs (PinoutApp_init width) Hok Hb I).
  - cbn beta. intros _ s (_ & _ & Hf & _). exact Hf.
Qed.

(** At any moment of any session, [show_category_pins] highlights the pins
    resolved from the shipped dataset that have a button, and fills the
    info box with the list of the resolved pins. *)
Lemma show_category_after_session width evs key cname nav :
  exists s s',
    run evs (PinoutApp_init width) = Ok tt s /\
    show_category_pins key cname nav s = Ok tt s' /\
    highlighted_buttons s'
    = filter (fun p => Py.str_in p (Py.dict_keys shipped_buttons))
             (category_pins shipped_data shipped_buttons key) /\
    info_layout s'
    = category_widgets shipped_data cname
        (category_pins shipped_data shipped_buttons key).
Proof.
  destruct (returns_unit _ _ _ (session_frame width evs)) as [s [Hrun Hf]].
  destruct (returns_unit _ _ _ (show_category_pins_spec key cname nav s))
    as [s' [Hshow (_ & _ & Hhl & _ & Hinfo)]].
  cbn zeta in Hhl, Hinfo.
  assert (Hpins : category_pins (pin_data s) (pin_buttons s) key
                  = category_pins shipped_data shipped_buttons key)
    by apply (frame_category_pins _ _ key Hf).
  exists s, s'. split; [exact Hrun |]. split; [exact Hshow |]. split.
  - rewrite Hhl, Hpins. unfold highlightable. now rewrite (frame_keys _ _ Hf).
  - rewrite Hinfo, Hpins. now rewrite (frame_data _ _ Hf).
Qed.

Lemma default_pins_highlightable s :
  highlightable s (category_pins (pin_data s) (pin_buttons s) "default")
  = category_pins (pin_data s) (pin_buttons s) "default".
Proof.
  apply filter_all. intros p Hp.
  apply category_pins_default_In in Hp as [Hk _]. now apply str_in_In.
Qed.

(** C6, amended: the pins resolved for [Input only] are exactly the pins
    whose type is [Input only], and sorted they are GPIO12, GPIO34, GPIO35,
    GPIO36, GPIO39; GPIO15 is not among them, its type is [Input/Output].
    At any moment of any session [show_category_pins] highlights these five
    pins for the key and lists them, sorted, as tags under a header that
    counts five. *)
Theorem input_only_category_pins :
  (forall p,
      In p (category_pins shipped_data shipped_buttons "Input only") <->
      exists pin, Py.dict_get p (pins shipped_data) = Some pin /\
                  pin_type pin = "Input only") /\
  Py.sorted (category_pins shipped_data shipped_buttons "Input only")
  = ["GPIO12"; "GPIO34"; "GPIO35"; "GPIO36"; "GPIO39"] /\
  ~ In "GPIO15" (category_pins shipped_data shipped_buttons "Input only") /\
  option_map pin_type (Py.dict_get "GPIO15" (pins shipped_data))
  = Some "Input/Output" /\
  (forall width evs cname nav, exists s s',
      run evs (PinoutApp_init width) = Ok tt s /\
      show_category_pins "Input only" cname nav s = Ok tt s' /\
      highlighted_buttons s'
      = ["GPIO12"; "GPIO34"; "GPIO35"; "GPIO36"; "GPIO39"] /\
      info_layout s'
      = category_widgets shipped_data cname
          ["GPIO12"; "GPIO34"; "GPIO35"; "GPIO36"; "GPIO39"] /\
      tag_targets (info_layout s')
      = ["GPIO12"; "GPIO34"; "GPIO35"; "GPIO36"; "GPIO39"]).
Proof.
  split; [| split; [| split; [| split]]].
  - intros p.
    change (category_pins shipped_data shipped_buttons "Input only")
      with (pins_of_type "Input only" (pins shipped_data)).
    apply pins_of_type_spec, shipped_keys_distinct.
  - vm_compute. reflexivity.
  - apply str_in_false. vm_compute. reflexivity.
  - reflexivity.
  - intros width evs cname nav.
    destruct (show_category_after_session width evs "Input only" cname nav)
      as (s & s' & Hrun & Hshow & Hhl & Hinfo).
    assert (Hpins : category_pins shipped_data shipped_buttons "Input only"
                    = ["GPIO12"; "GPIO34"; "GPIO35"; "GPIO36"; "GPIO39"])
      by (vm_compute; reflexivity).
    rewrite Hpins in Hhl, Hinfo.
    exists s, s'. split; [exact Hrun |]. split; [exact Hshow |].
    split; [rewrite Hhl; vm_compute; reflexivity |].
    split; [exact Hinfo |].
    rewrite Hinfo, tag_targets_category_widgets. vm_compute. reflexivity.
Qed.

(** C7: for the shipped dataset the [default] key resolves exactly the pin
    ids (the dataset and the buttons have the same ones) that start with
    [GPIO] and are in none of the i2c, adc, spi, pwm and power lists; and
    whatever the dataset, no id without the [GPIO] prefix and no member of
    those lists is resolved, so EN, VIN and GND1 never are.
    [show_category_pins] for the [default] key returns, highlights exactly
    the resolved pins and lists them in the info box: in any state these
    all carry the prefix and are outside the five lists, and at any moment
    of any session of the shipped application they are exactly the pin ids
    with the prefix outside the five lists, GPIO6 to GPIO11 (as tags, in
    the order of [sorted]: GPIO10, GPIO11, GPIO6, ..., GPIO9). *)
Theorem default_category_pins :
  (forall p,
      In p (category_pins shipped_data shipped_buttons "default") <->
      In p (Py.dict_keys shipped_buttons) /\
      String.prefix "GPIO" p = true /\
      ~ In p (listed_pins shipped_data)) /\
  (forall p, In p (Py.dict_keys shipped_buttons) <->
             In p (Py.dict_keys (pins shipped_data))) /\
  (forall d b p,
      In p (category_pins d b "default") ->
      String.prefix "GPIO" p = true /\ ~ In p (listed_pins d)) /\
  (forall d b,
      ~ In "EN" (category_pins d b "default") /\
      ~ In "VIN" (category_pins d b "default") /\
      ~ In "GND1" (category_pins d b "default")) /\
  (forall s cname nav, exists s',
      show_category_pins "default" cname nav s = Ok tt s' /\
      highlighted_buttons s'
      = category_pins (pin_data s) (pin_buttons s) "default" /\
      info_layout s'
      = category_widgets (pin_data s) cname
          (category_pins (pin_data s) (pin_buttons s) "default") /\
      (forall p, In p (highlighted_buttons s') ->
                 String.prefix "GPIO" p = true /\
                 ~ In p (listed_pins (pin_data s))) /\
      ~ In "EN" (highlighted_buttons s') /\
      ~ In "VIN" (highlighted_buttons s') /\
      ~ In "GND1" (highlighted_buttons s')) /\
  (forall width evs cname nav, exists s s',
      run evs (PinoutApp_init width) = Ok tt s /\
      show_category_pins "default" cname nav s = Ok tt s' /\
      (forall p,
          In p (highlighted_buttons s') <->
          In p (Py.dict_keys (pins shipped_data)) /\
          String.prefix "GPIO" p = true /\
          ~ In p (listed_pins shipped_data)) /\
      (forall p,
          In p (tag_targets (info_layout s')) <->
          In p (Py.dict_keys (pins shipped_data)) /\
          String.prefix "GPIO" p = true /\
          ~ In p (listed_pins shipped_data)) /\
      highlighted_buttons s'
      = ["GPIO6"; "GPIO7"; "GPIO8"; "GPIO9"; "GPIO10"; "GPIO11"] /\
      info_layout s'
      = category_widgets shipped_data cname
          ["GPIO6"; "GPIO7"; "GPIO8"; "GPIO9"; "GPIO10"; "GPIO11"] /\
      tag_targets (info_layout s')
      = ["GPIO10"; "GPIO11"; "GPIO6"; "GPIO7"; "GPIO8"; "GPIO9"]).
Proof.
  assert (Hchar : forall p,
             In p (category_pins shipped_data shipped_buttons "default") <->
             In p (Py.dict_keys shipped_buttons) /\
             String.prefix "GPIO" p = true /\
             ~ In p (listed_pins shipped_data)).
  { intros p. rewrite category_pins_default_In. split.
    + tauto.
    + intros (Hk & Hg & Hl). repeat split; try assumption.
      * intros Hin. apply Hl, shipped_derived_pins_listed. now left.
      * intros Hin. apply Hl, shipped_derived_pins_listed. now right. }
  assert (Hkeys : forall p, In p (Py.dict_keys shipped_buttons) <->
                            In p (Py.dict_keys (pins shipped_data))).
  { intros p. rewrite <- !str_in_In.
    assert (Hsame : Py.dict_keys shipped_buttons
                    = ["GPIO0"; "GPIO1"; "GPIO2"; "GPIO3"; "GPIO4"; "GPIO5";
                       "GPIO6"; "GPIO7"; "GPIO8"; "GPIO9"; "GPIO10"; "GPIO11";
                       "GPIO12"; "GPIO13"; "GPIO14"; "GPIO15"; "GPIO16"; "GPIO17";
                       "GPIO18"; "GPIO19"; "GPIO21"; "GPIO22"; "GPIO23"; "GPIO25";
                       "GPIO26"; "GPIO27"; "GPIO32"; "GPIO33"; "GPIO34"; "GPIO35";
                       "GPIO36"; "GPIO39"; "EN"; "VIN"; "GND1"; "GND2"; "GND3"; "3V3"])
      by (vm_compute; reflexivity).
    assert (Hdata : Py.dict_keys (pins shipped_data)
                    = ["GPIO0"; "GPIO1"; "GPIO2"; "GPIO3"; "GPIO4"; "GPIO5";
                       "GPIO6"; "GPIO7"; "GPIO8"; "GPIO9"; "GPIO10"; "GPIO11";
                       "GPIO12"; "GPIO13"; "GPIO14"; "GPIO15"; "GPIO16"; "GPIO17";
                       "GPIO18"; "GPIO19"; "GPIO21"; "GPIO22"; "GPIO23"; "GPIO25";
                       "GPIO26"; "GPIO27"; "GPIO32"; "GPIO33"; "GPIO34"; "GPIO35";
                       "GPIO36"; "GPIO39"; "EN"; "VIN"; "3V3"; "GND2"; "GND3"; "GND1"])
      by (vm_compute; reflexivity).
    rewrite Hsame, Hdata. unfold Py.str_in. cbn [existsb].
    rewrite !orb_true_iff. tauto. }
  assert (Hgen : forall d b p,
             In p (category_pins d b "default") ->
             String.prefix "GPIO" p = true /\ ~ In p (listed_pins d)).
  { intros d b p Hin. apply category_pins_default_In in Hin. tauto. }
  assert (Hnot : forall d b q, String.prefix "GPIO" q = false ->
                               ~ In q (category_pins d b "default")).
  { intros d b q Hq Hin. apply Hgen in Hin as [Hg _]. congruence. }
  split; [exact Hchar |]. split; [exact Hkeys |]. split; [exact Hgen |].
  split; [| split].
  - intros d b. repeat split; apply Hnot; reflexivity.
  - intros s cname nav.
    destruct (returns_unit _ _ _ (show_category_pins_spec "default" cname nav s))
      as [s' [Hshow (_ & _ & Hhl & _ & Hinfo)]].
    cbn zeta in Hhl, Hinfo. rewrite default_pins_highlightable in Hhl.
    exists s'. split; [exact Hshow |]. split; [exact Hhl |].
    split; [exact Hinfo |]. rewrite Hhl.
    split; [intros p Hp; eapply Hgen, Hp |].
    repeat split; apply Hnot; reflexivity.
  - intros width evs cname nav.
    destruct (show_category_after_session width evs "default" cname nav)
      as (s & s' & Hrun & Hshow & Hhl & Hinfo).
    assert (Hfilter : filter (fun p => Py.str_in p (Py.dict_keys shipped_buttons))
                        (category_pins shipped_data shipped_buttons "default")
                      = category_pins shipped_data shipped_buttons "default").
    { apply filter_all. intros p Hp. apply Hchar in Hp as [Hk _].
      now apply str_in_In. }
    rewrite Hfilter in Hhl.
    assert (Hpins : category_pins shipped_data shipped_buttons "default"
                    = ["GPIO6"; "GPIO7"; "GPIO8"; "GPIO9"; "GPIO10"; "GPIO11"])
      by (vm_compute; reflexivity).
    assert (Htags : tag_targets (info_layout s')
                    = ["GPIO10"; "GPIO11"; "GPIO6"; "GPIO7"; "GPIO8"; "GPIO9"]).
    { rewrite Hinfo, tag_targets_category_widgets, Hpins.
      vm_compute. reflexivity. }
    exists s, s'. split; [exact Hrun |]. split; [exact Hshow |].
    split; [intros p; rewrite Hhl, Hchar, Hkeys; reflexivity |].
    split.
    { intros p. rewrite <- Hkeys, <- Hchar, Hpins, Htags. cbn [In]. tauto. }
    split; [now rewrite Hhl |].
    split; [now rewrite Hinfo, Hpins | exact Htags].
Qed.

(** An instance of C7: GPIO6 is resolved for [default], so it carries the
    prefix and is in none of the five lists. *)
Lemma default_category_pins_witness :
  In "GPIO6" (category_pins shipped_data shipped_buttons "default") /\
  String.prefix "GPIO" "GPIO6" = true /\
  ~ In "GPIO6" (listed_pins shipped_data).
Proof.
  assert (H : In "GPIO6" (category_pins shipped_data shipped_buttons "default")).
  { apply str_in_In. vm_compute. reflexivity. }
  split; [exact H |].
  exact (proj1 (proj2 (proj2 default_category_pins))
           shipped_data shipped_buttons "GPIO6" H).
Defined.
